(** * Account REST API service: the request handlers of [service/routes.py]

    The handlers are embedded as computations in a small state-and-exception
    monad over the account table.  [request], which Flask keeps in a
    context-local, is passed as an argument; [date.today()] is an input of
    the computations that need it. *)

From Stdlib Require Import Ascii.
From stdpp Require Import gmap strings list fin_maps pretty.

#[local] Open Scope string_scope.
#[local] Open Scope Z_scope.

(** ** JSON values

    What [request.get_json()] returns and what [jsonify] renders.  Numbers
    are restricted to integers: the service reads and writes no other. *)

#[warnings="-register-all"]
Inductive json : Type :=
  | JNull
  | JBool (b : bool)
  | JInt (n : Z)
  | JString (s : string)
  | JArray (items : list json)
  | JObject (members : list (string * json)).

(** [data.get(key)] on the dict a JSON object is read into. *)
Fixpoint dict_get (key : string) (members : list (string * json)) : option json :=
  match members with
  | [] => None
  | (k, v) :: rest => if decide (k = key) then Some v else dict_get key rest
  end.

(** ** Calendar dates: [datetime.date] restricted to the ISO form YYYY-MM-DD *)

Record Date : Type := mkDate { year : Z; month : Z; day : Z }.

Definition is_leap (y : Z) : bool :=
  ((y mod 4 =? 0) && negb (y mod 100 =? 0)) || (y mod 400 =? 0).

Definition days_in_month (y m : Z) : Z :=
  if m =? 2 then (if is_leap y then 29 else 28)
  else if (m =? 4) || (m =? 6) || (m =? 9) || (m =? 11) then 30
  else 31.

Definition digit_value (c : ascii) : option Z :=
  let n := Z.of_N (N_of_ascii c) in
  if (48 <=? n) && (n <=? 57) then Some (n - 48) else None.

Fixpoint digits_value (acc : Z) (cs : list ascii) : option Z :=
  match cs with
  | [] => Some acc
  | c :: rest =>
      match digit_value c with
      | Some d => digits_value (10 * acc + d) rest
      | None => None
      end
  end.

Definition check_date (y m d : Z) : option Date :=
  if (1 <=? y) && (y <=? 9999) && (1 <=? m) && (m <=? 12)
     && (1 <=? d) && (d <=? days_in_month y m)
  then Some (mkDate y m d) else None.

Definition fromisoformat (s : string) : option Date :=
  match String.list_ascii_of_string s with
  | [y1; y2; y3; y4; "-"%char; m1; m2; "-"%char; d1; d2] =>
      match digits_value 0 [y1; y2; y3; y4],
            digits_value 0 [m1; m2], digits_value 0 [d1; d2] with
      | Some y, Some m, Some d => check_date y m d
      | _, _, _ => None
      end
  | _ => None
  end.

Definition digit_char (d : Z) : ascii := ascii_of_N (Z.to_N (48 + d mod 10)).

Definition pad2 (n : Z) : string :=
  String (digit_char (n / 10)) (String (digit_char n) "").

Definition pad4 (n : Z) : string :=
  String (digit_char (n / 1000)) (String (digit_char (n / 100)) (pad2 n)).

Definition isoformat (d : Date) : string :=
  pad4 (year d) +:+ "-" +:+ pad2 (month d) +:+ "-" +:+ pad2 (day d).

(** ** HTTP status codes used by the handlers

    Modelled from the spec: [service.common.status] is absent from the
    sources; its constants carry the numbers the names and the route table
    of the specification give them. *)

Module status.
Definition HTTP_200_OK : Z := 200.
Definition HTTP_201_CREATED : Z := 201.
Definition HTTP_204_NO_CONTENT : Z := 204.
Definition HTTP_400_BAD_REQUEST : Z := 400.
Definition HTTP_404_NOT_FOUND : Z := 404.
Definition HTTP_415_UNSUPPORTED_MEDIA_TYPE : Z := 415.
End status.

(** ** Exceptions a handler can raise *)

Inductive Exn : Type :=
  | HTTPException (code : Z) (description : string)
  | DataValidationError (message : string).

(** ** The account table and the handler monad *)

(** The columns of a row other than the primary key.  An attribute that has
    not been populated yet is [None], as on a fresh Python object. *)
Record Row : Type := mkRow {
  name : option string;
  email : option string;
  address : option string;
  phone_number : option string;
  date_joined : option Date
}.

(** Modelled from the spec: the relational table behind [service.models],
    which is absent from the sources.  One row per account, keyed by the
    primary key [id], and the sequence the persistence layer draws fresh
    ids from. *)
Record Store : Type := mkStore {
  rows : gmap Z Row;
  next_id : Z
}.

Definition empty_store : Store := {| rows := ∅; next_id := 1 |}.

Definition Flask (A : Type) : Type := Store → (Exn + A) * Store.

Definition ret {A} (a : A) : Flask A := λ s, (inr a, s).

Definition raise {A} (e : Exn) : Flask A := λ s, (inl e, s).

Definition bind {A B} (c : Flask A) (k : A → Flask B) : Flask B :=
  λ s, match c s with
       | (inr a, s') => k a s'
       | (inl e, s') => (inl e, s')
       end.

Definition lift {A} (r : Exn + A) : Flask A := λ s, (r, s).

Notation "'let*' x ':=' c 'in' k" := (bind c (λ x, k))
  (at level 10, x name, c at level 100, k at level 200).

(** [flask.abort(code, description)] *)
Definition abort {A} (code : Z) (description : string) : Flask A :=
  raise (HTTPException code description).

(** ** The record model

    The class [Account] of [service.models] is absent from the sources: the
    definitions of this module follow the contract the specification gives
    for the record model. *)

Module Account.

(** An account object: the columns, and the id once one is assigned. *)
Record t : Type := mk { id : option Z; cols : Row }.

(** Modelled from the spec: [Account()], a record with nothing populated. *)
Definition new : t :=
  {| id := None; cols := mkRow None None None None None |}.

(** Modelled from the spec: reading a required text field fails with a
    validation error if the key is absent or its value is not a string. *)
Definition text_field (key : string) (members : list (string * json))
  : Exn + string :=
  match dict_get key members with
  | None => inl (DataValidationError ("Invalid Account: missing " +:+ key))
  | Some (JString s) => inr s
  | Some _ => inl (DataValidationError ("Invalid Account: bad " +:+ key))
  end.

(** Modelled from the spec: the optional date defaults to the current date
    if omitted and must otherwise be a parsable ISO date. *)
Definition date_field (today : Date) (members : list (string * json))
  : Exn + Date :=
  match dict_get "date_joined" members with
  | None => inr today
  | Some (JString s) =>
      match fromisoformat s with
      | Some d => inr d
      | None => inl (DataValidationError "Invalid Account: bad date_joined")
      end
  | Some _ => inl (DataValidationError "Invalid Account: bad date_joined")
  end.

(** Modelled from the spec: [deserialize] consumes a key-value mapping and
    populates the four required text fields and the optional date field; it
    leaves [id] alone. *)
Definition deserialize (today : Date) (self : t) (data : json) : Flask t :=
  match data with
  | JObject members =>
      let* n := lift (text_field "name" members) in
      let* e := lift (text_field "email" members) in
      let* a := lift (text_field "address" members) in
      let* p := lift (text_field "phone_number" members) in
      let* d := lift (date_field today members) in
      ret {| id := id self;
             cols := mkRow (Some n) (Some e) (Some a) (Some p) (Some d) |}
  | _ => raise (DataValidationError "Invalid Account: body is not a mapping")
  end.

(** An attribute as JSON: [None] is rendered as null. *)
Definition json_of_text (o : option string) : json :=
  match o with Some s => JString s | None => JNull end.

(** Modelled from the spec: [serialize] yields a mapping of [id] and all
    the fields, the date as an ISO string. *)
Definition serialize (self : t) : list (string * json) :=
  [ ("id", match id self with Some k => JInt k | None => JNull end);
    ("name", json_of_text (name (cols self)));
    ("email", json_of_text (email (cols self)));
    ("address", json_of_text (address (cols self)));
    ("phone_number", json_of_text (phone_number (cols self)));
    ("date_joined", json_of_text (isoformat <$> date_joined (cols self))) ].

(** Modelled from the spec: [create] inserts a new row and assigns [id]. *)
Definition create (self : t) : Flask t :=
  λ s, let k := next_id s in
       (inr {| id := Some k; cols := cols self |},
        {| rows := <[k := cols self]> (rows s); next_id := k + 1 |}).

(** Modelled from the spec: [update] persists the columns of an identified
    record and fails if the record lacks an assigned identity. *)
Definition update (self : t) : Flask unit :=
  match id self with
  | None => raise (DataValidationError "Update called with empty ID field")
  | Some k =>
      λ s, (inr (), {| rows := <[k := cols self]> (rows s);
                      next_id := next_id s |})
  end.

(** Modelled from the spec: [delete] removes the row of the record. *)
Definition delete (self : t) : Flask unit :=
  match id self with
  | None => ret ()
  | Some k =>
      λ s, (inr (), {| rows := base.delete k (rows s);
                      next_id := next_id s |})
  end.

(** Modelled from the spec: [find] returns the record matching the id, or
    [None] if there is none. *)
Definition find (by_id : Z) : Flask (option t) :=
  λ s, (inr (mk (Some by_id) <$> rows s !! by_id), s).

(** Modelled from the spec: [all] returns every record, in the order of
    the store. *)
Definition all : Flask (list t) :=
  λ s, (inr ((λ kr, mk (Some kr.1) kr.2) <$> map_to_list (rows s)), s).

End Account.

(** ** Requests and responses *)

(** How [request.get_json()] can fail: Flask raises 400 Bad Request on a
    body that is not a JSON document and, in the versions that check it,
    415 Unsupported Media Type on a request not labelled as JSON. *)
Inductive JsonError : Type :=
  | BadRequest
  | UnsupportedMediaType.

(** A request as the handlers see it: its headers, and what
    [request.get_json()] yields on it, the document the body parses to or
    the way reading it fails. *)
Record Request : Type := mkRequest {
  headers : list (string * string);
  body_json : JsonError + json
}.

(** [headers.get(name)] *)
Fixpoint headers_get (key : string) (hs : list (string * string))
  : option string :=
  match hs with
  | [] => None
  | (k, v) :: rest => if decide (k = key) then Some v else headers_get key rest
  end.

(** [request.content_type] is Werkzeug's header property for Content-Type. *)
Definition content_type (request : Request) : option string :=
  headers_get "Content-Type" (headers request).

Definition get_json (request : Request) : Flask json :=
  match body_json request with
  | inr v => ret v
  | inl BadRequest => abort 400 "Failed to decode JSON object"
  | inl UnsupportedMediaType =>
      abort 415 "Did not attempt to load JSON data"
  end.

Inductive Payload : Type :=
  | Text (s : string)
  | Json (v : json).

Record Response : Type := mkResponse {
  status_code : Z;
  data : Payload;
  resp_headers : list (string * string)
}.

Definition jsonify (v : json) : Response :=
  {| status_code := 200; data := Json v;
     resp_headers := [("Content-Type", "application/json")] |}.

(** What a view may hand to [make_response]. *)
Inductive ReturnValue : Type :=
  | RStr (s : string)
  | RDict (members : list (string * json))
  | RResp (r : Response).

(** [headers.update(extra)]: the new entries replace those of the same name. *)
Definition headers_update (old extra : list (string * string))
  : list (string * string) :=
  filter (λ h, headers_get h.1 extra = None) old ++ extra.

Definition make_response (rv : ReturnValue) (status : Z)
    (extra : list (string * string)) : Response :=
  let r := match rv with
           | RStr s => {| status_code := 200; data := Text s;
                          resp_headers :=
                            [("Content-Type", "text/html; charset=utf-8")] |}
           | RDict members => jsonify (JObject members)
           | RResp r => r
           end in
  {| status_code := status; data := data r;
     resp_headers := headers_update (resp_headers r) extra |}.

(** Werkzeug sends no body with a 1xx, 204 or 304 response, whatever the
    view put into it ([Response.get_app_iter]). *)
Definition bodiless (code : Z) : bool :=
  ((100 <=? code) && (code <? 200)) || (code =? 204) || (code =? 304).

Definition sent_body (r : Response) : Payload :=
  if bodiless (status_code r) then Text "" else data r.

(** Python's [str] of an integer, for the f-strings. *)
Definition str (n : Z) : string := pretty n.

(** Truth value of an optional string: [None] and [""] are false. *)
Definition truthy (o : option string) : bool :=
  match o with
  | Some s => negb (bool_decide (s = ""))
  | None => false
  end.

(** ** The handlers *)

Import status.

(** [GET /health] *)
Definition health : Flask Response :=
  ret (make_response (RResp (jsonify (JObject [("status", JString "OK")])))
         HTTP_200_OK []).

(** [GET /] *)
Definition index : Flask Response :=
  ret (make_response
         (RResp (jsonify (JObject [("name", JString "Account REST API Service");
                                   ("version", JString "1.0")])))
         HTTP_200_OK []).

(** The utility that checks the media type; its call of [app.logger.error]
    before the abort leaves no trace in the response or the table. *)
Definition check_content_type (request : Request) (media_type : string)
  : Flask unit :=
  let content_type := headers_get "Content-Type" (headers request) in
  if truthy content_type && bool_decide (content_type = Some media_type)
  then ret ()
  else abort HTTP_415_UNSUPPORTED_MEDIA_TYPE
         ("Content-Type must be " +:+ media_type).

(** [POST /accounts] *)
Definition create_accounts (today : Date) (request : Request)
  : Flask Response :=
  if bool_decide (content_type request ≠ Some "application/json") then
    ret (make_response (RStr "Unsupported content type sent ")
           HTTP_415_UNSUPPORTED_MEDIA_TYPE [])
  else
    let* _ := check_content_type request "application/json" in
    let account := Account.new in
    let* body := get_json request in
    let* account := Account.deserialize today account body in
    let* account := Account.create account in
    let message := Account.serialize account in
    let location_url := "/" in
    ret (make_response (RResp (jsonify (JObject message)))
           HTTP_201_CREATED [("Location", location_url)]).

(** [GET /accounts]; the handler also logs the number of accounts. *)
Definition list_accounts : Flask Response :=
  let* all_accounts := Account.all in
  let account_list := (λ account, JObject (Account.serialize account))
                        <$> all_accounts in
  ret (make_response (RResp (jsonify (JArray account_list))) HTTP_200_OK []).

(** [GET /accounts/<id>].  The path segment [id] is taken as the integer key
    it names.  The message of the 404 is the f-string
    [f"Account with id {0} not found"], whose placeholder holds the
    constant [0]. *)
Definition read_account (id : Z) : Flask Response :=
  let* account := Account.find id in
  match account with
  | None =>
      ret (make_response (RStr ("Account with id " +:+ str 0 +:+ " not found"))
             HTTP_404_NOT_FOUND [])
  | Some account =>
      let account_data := Account.serialize account in
      ret (make_response (RDict account_data) HTTP_200_OK [])
  end.

(** [PUT /accounts/<id>] *)
Definition update_account (today : Date) (request : Request) (id : Z)
  : Flask Response :=
  let* updated_account := get_json request in
  let* account := Account.find id in
  match account with
  | None =>
      ret (make_response (RStr "Could not find account to update")
             HTTP_404_NOT_FOUND [])
  | Some account =>
      let* account := Account.deserialize today account updated_account in
      let* _ := Account.update account in
      ret (make_response (RDict (Account.serialize account)) HTTP_200_OK [])
  end.

(** [DELETE /accounts/<id>] *)
Definition delete_account (id : Z) : Flask Response :=
  let* account := Account.find id in
  match account with
  | None =>
      ret (make_response (RStr "Could not find account to delete")
             HTTP_404_NOT_FOUND [])
  | Some account =>
      let* _ := Account.delete account in
      ret (make_response (RStr ("Account with " +:+ str id +:+ " deleted"))
             HTTP_204_NO_CONTENT [])
  end.

(** ** The application: routing and error handling *)

Inductive Endpoint : Type :=
  | GET_health
  | GET_index
  | POST_accounts
  | GET_accounts
  | GET_account (id : Z)
  | PUT_account (id : Z)
  | DELETE_account (id : Z).

Record Call : Type := mkCall {
  endpoint : Endpoint;
  request : Request;
  today : Date
}.

Definition dispatch (c : Call) : Flask Response :=
  match endpoint c with
  | GET_health => health
  | GET_index => index
  | POST_accounts => create_accounts (today c) (request c)
  | GET_accounts => list_accounts
  | GET_account id => read_account id
  | PUT_account id => update_account (today c) (request c) id
  | DELETE_account id => delete_account id
  end.

(** Modelled from the spec: the error handlers of the application are
    absent from the sources.  A validation error is answered with 400,
    an HTTP error with its own code, each with its message as the body. *)
Definition handle_exception (e : Exn) : Response :=
  match e with
  | HTTPException code description => make_response (RStr description) code []
  | DataValidationError message =>
      make_response (RStr message) HTTP_400_BAD_REQUEST []
  end.

Definition full_dispatch (c : Call) (s : Store) : Response * Store :=
  match dispatch c s with
  | (inr r, s') => (r, s')
  | (inl e, s') => (handle_exception e, s')
  end.

(** A sequence of calls served one after the other. *)
Fixpoint serve (cs : list Call) (s : Store) : list Response * Store :=
  match cs with
  | [] => ([], s)
  | c :: rest =>
      let '(r, s') := full_dispatch c s in
      let '(rs, s'') := serve rest s' in
      (r :: rs, s'')
  end.

(** ** Vocabulary of the properties *)

(** Whether [request.get_json()] yields a document on the request. *)
Definition reads_json (request : Request) : bool :=
  match body_json request with
  | inr _ => true
  | inl _ => false
  end.

Definition is_delete (c : Call) : bool :=
  match endpoint c with
  | DELETE_account _ => true
  | _ => false
  end.

(** A call and its response make a successful create: a POST to /accounts
    answered with 201. *)
Definition successful_create (cr : Call * Response) : bool :=
  match endpoint cr.1 with
  | POST_accounts => bool_decide (status_code cr.2 = 201)
  | _ => false
  end.

Definition successful_creates (cs : list Call) (rs : list Response) : nat :=
  length (List.filter successful_create (zip cs rs)).

(** The id a response reports in its body, if it is a record. *)
Definition assigned_id (r : Response) : option Z :=
  match data r with
  | Json (JObject members) =>
      match dict_get "id" members with
      | Some (JInt k) => Some k
      | _ => None
      end
  | _ => None
  end.

(** Every id in the table has been drawn from the sequence already. *)
Definition well_formed (s : Store) : Prop :=
  ∀ k, is_Some (rows s !! k) → k < next_id s.

(** What serving one call does to the table. *)
Inductive effect (c : Call) (s : Store) (r : Response) : Store → Prop :=
  | effect_none :
      successful_create (c, r) = false →
      effect c s r s
  | effect_created row :
      successful_create (c, r) = true →
      assigned_id r = Some (next_id s) →
      effect c s r {| rows := <[next_id s := row]> (rows s);
                      next_id := next_id s + 1 |}
  | effect_updated id row row' :
      endpoint c = PUT_account id →
      rows s !! id = Some row →
      effect c s r {| rows := <[id := row']> (rows s); next_id := next_id s |}
  | effect_deleted id row :
      endpoint c = DELETE_account id →
      rows s !! id = Some row →
      effect c s r {| rows := delete id (rows s); next_id := next_id s |}.

(** ** Sample requests, after the scenario of the test suite *)

Definition a_day : Date := mkDate 2024 1 2.

Definition sam : list (string * json) :=
  [ ("name", JString "Sam"); ("email", JString "sam@example.com");
    ("address", JString "1 Main St"); ("phone_number", JString "555-0100") ].

Definition sam_row : Row :=
  mkRow (Some "Sam") (Some "sam@example.com") (Some "1 Main St")
    (Some "555-0100") (Some a_day).

Definition sam_renamed : list (string * json) :=
  [ ("name", JString "Sam A"); ("email", JString "sam@example.com");
    ("address", JString "1 Main St"); ("phone_number", JString "555-0100");
    ("date_joined", JString "2024-01-02") ].

Definition sam_renamed_row : Row :=
  mkRow (Some "Sam A") (Some "sam@example.com") (Some "1 Main St")
    (Some "555-0100") (Some a_day).

(** A request labelled as JSON, on whose body [get_json] does [body]. *)
Definition json_request (body : JsonError + json) : Request :=
  {| headers := [("Content-Type", "application/json")]; body_json := body |}.

(** A request labelled as HTML that nevertheless carries a valid account. *)
Definition html_request : Request :=
  {| headers := [("Content-Type", "test/html")];
     body_json := inr (JObject sam) |}.

(** A request without headers or body, as a GET or a DELETE sends. *)
Definition bare_request : Request :=
  {| headers := []; body_json := inl BadRequest |}.

Definition post_sam : Call :=
  mkCall POST_accounts (json_request (inr (JObject sam))) a_day.

Definition post_name_only : Call :=
  mkCall POST_accounts
    (json_request (inr (JObject [("name", JString "not enough data")]))) a_day.

Definition post_html : Call := mkCall POST_accounts html_request a_day.

Definition put_sam_renamed (id : Z) : Call :=
  mkCall (PUT_account id) (json_request (inr (JObject sam_renamed))) a_day.

Definition put_unreadable (id : Z) : Call :=
  mkCall (PUT_account id) (json_request (inl BadRequest)) a_day.

Definition get_one (id : Z) : Call := mkCall (GET_account id) bare_request a_day.

Definition get_all : Call := mkCall GET_accounts bare_request a_day.

Definition delete_one (id : Z) : Call :=
  mkCall (DELETE_account id) bare_request a_day.

(** The table after Sam has been created in the empty one. *)
Definition sam_store : Store := (full_dispatch post_sam empty_store).2.

(** ** Further vocabulary: the calls of the test suite *)

(** [d[key] = value] on a dict: the value of an existing key is replaced in
    place, a new key goes to the end. *)
Fixpoint dict_set (key : string) (value : json)
    (members : list (string * json)) : list (string * json) :=
  match members with
  | [] => [(key, value)]
  | (k, v) :: rest =>
      if decide (k = key) then (k, value) :: rest
      else (k, v) :: dict_set key value rest
  end.

(** A date of the calendar, as [date.today()] returns one. *)
Definition valid_date (d : Date) : bool :=
  match check_date (year d) (month d) (day d) with
  | Some _ => true
  | None => false
  end.

(** The calls that only read: the routes registered for GET. *)
Definition is_get (c : Call) : bool :=
  match endpoint c with
  | GET_health | GET_index | GET_accounts | GET_account _ => true
  | _ => false
  end.

(** The members of the JSON object a response carries, if it carries one. *)
Definition get_json_members (r : Response) : option (list (string * json)) :=
  match sent_body r with
  | Json (JObject members) => Some members
  | _ => None
  end.

Definition put_name_only (id : Z) : Call :=
  mkCall (PUT_account id)
    (json_request (inr (JObject [("name", JString "not enough data")]))) a_day.

(** The table after Sam and, under id 2, a second account were created. *)
Definition two_store : Store := (full_dispatch post_sam sam_store).2.

(** The PUT of the test of updates: the body of a create response sent
    back with another name. *)
Definition put_back (id : Z) (account : list (string * json))
    (new_name : string) (today : Date) : Call :=
  mkCall (PUT_account id)
    (json_request (inr (JObject (dict_set "name" (JString new_name) account))))
    today.

(** An account as the factory of the tests hands one out: every column
    populated, the date a date of the calendar. *)
Definition populated (row : Row) : bool :=
  match row with
  | mkRow (Some _) (Some _) (Some _) (Some _) (Some d) => valid_date d
  | _ => false
  end.

(** [self.client.post(BASE_URL, json=account.serialize())] *)
Definition post_account (account : Account.t) (today : Date) : Call :=
  mkCall POST_accounts
    (json_request (inr (JObject (Account.serialize account)))) today.

(** [new_account["id"]] as the id of an account object. *)
Definition id_of_json (v : json) : option Z :=
  match v with
  | JInt k => Some k
  | _ => None
  end.

(** The helper [_create_accounts] of the test suite, over the accounts the
    factory hands it: each is posted, the response is asserted to be 201,
    and the account is collected under the id of the response.  [None]
    stands for a failed assertion or a missing key. *)
Fixpoint _create_accounts (accounts : list Account.t) (today : Date)
    (s : Store) : option (list Account.t) * Store :=
  match accounts with
  | [] => (Some [], s)
  | account :: rest =>
      let '(response, s1) := full_dispatch (post_account account today) s in
      if bool_decide (status_code response = status.HTTP_201_CREATED) then
        match get_json_members response with
        | Some new_account =>
            match dict_get "id" new_account with
            | Some new_id =>
                let account := Account.mk (id_of_json new_id)
                                 (Account.cols account) in
                let '(collected, s2) := _create_accounts rest today s1 in
                ((λ l, account :: l) <$> collected, s2)
            | None => (None, s1)
            end
        | None => (None, s1)
        end
      else (None, s1)
  end.

(** The table as [setUp] leaves it: no rows, the id sequence wherever the
    earlier tests have left it. *)
Definition cleared (next : Z) : Store := {| rows := ∅; next_id := next |}.

Definition factory_sam : Account.t := Account.mk None sam_row.

Definition factory_sam_a : Account.t := Account.mk None sam_renamed_row.

(** ** Properties of the record model *)

Definition required_fields : list string :=
  ["name"; "email"; "address"; "phone_number"].

Lemma text_field_cases key members :
  (∃ msg, Account.text_field key members = inl (DataValidationError msg)
          ∧ ∀ s, dict_get key members ≠ Some (JString s))
  ∨ (∃ s, Account.text_field key members = inr s
          ∧ dict_get key members = Some (JString s)).
Proof.
  unfold Account.text_field.
  destruct (dict_get key members) as [[]|]; eauto; left; eauto.
Qed.

Lemma date_field_cases today members :
  (∃ msg, Account.date_field today members = inl (DataValidationError msg))
  ∨ (∃ d, Account.date_field today members = inr d).
Proof.
  unfold Account.date_field.
  destruct (dict_get "date_joined" members) as [[]|]; eauto.
  destruct (fromisoformat s); eauto.
Qed.

(** Deserializing reads the body only: it neither looks at the table nor
    changes it, and it raises nothing but validation errors. *)
Lemma deserialize_cases today self body :
  (∃ msg, ∀ s, Account.deserialize today self body s
               = (inl (DataValidationError msg), s))
  ∨ (∃ row, ∀ s, Account.deserialize today self body s
                 = (inr (Account.mk (Account.id self) row), s)).
Proof.
  destruct body; try (left; eexists; intros; reflexivity).
  unfold Account.deserialize, bind, lift, ret.
  destruct (text_field_cases "name" members) as [(m & -> & _)|(n & -> & _)];
    [left; eauto|].
  destruct (text_field_cases "email" members) as [(m & -> & _)|(e & -> & _)];
    [left; eauto|].
  destruct (text_field_cases "address" members) as [(m & -> & _)|(a & -> & _)];
    [left; eauto|].
  destruct (text_field_cases "phone_number" members)
    as [(m & -> & _)|(p & -> & _)]; [left; eauto|].
  destruct (date_field_cases today members) as [(m & ->)|(d & ->)];
    [left; eauto|right; eauto].
Qed.

Lemma deserialize_ok_inv today self body s account s' :
  Account.deserialize today self body s = (inr account, s') →
  s' = s ∧ Account.id account = Account.id self
  ∧ ∀ s0, Account.deserialize today self body s0 = (inr account, s0).
Proof.
  intros H.
  destruct (deserialize_cases today self body) as [[msg E]|[row E]];
    rewrite E in H; [discriminate|].
  injection H as <- <-. auto.
Qed.

(** A body that lacks a required key is refused, whatever else it holds. *)
Lemma deserialize_missing today self members key :
  key ∈ required_fields →
  dict_get key members = None →
  ∃ msg, ∀ s, Account.deserialize today self (JObject members) s
              = (inl (DataValidationError msg), s).
Proof.
  intros Hkey Hnone.
  unfold Account.deserialize, bind, lift, ret.
  destruct (text_field_cases "name" members) as [(m & -> & _)|(n & -> & Hn)];
    [eauto|].
  destruct (text_field_cases "email" members) as [(m & -> & _)|(e & -> & He)];
    [eauto|].
  destruct (text_field_cases "address" members) as [(m & -> & _)|(a & -> & Ha)];
    [eauto|].
  destruct (text_field_cases "phone_number" members)
    as [(m & -> & _)|(p & -> & Hp)]; [eauto|].
  exfalso. unfold required_fields in Hkey.
  repeat (apply elem_of_cons in Hkey as [->|Hkey]); try congruence.
  by apply elem_of_nil in Hkey.
Qed.

(** The columns a body yields do not depend on the record they are put
    into: nothing of the previous row survives a successful deserialize. *)
Lemma deserialize_cols today self self' body s account :
  Account.deserialize today self body s = (inr account, s) →
  Account.deserialize today self' body s
  = (inr (Account.mk (Account.id self') (Account.cols account)), s).
Proof.
  destruct body; try discriminate.
  unfold Account.deserialize, bind, lift, ret.
  destruct (Account.text_field "name" members); [discriminate|].
  destruct (Account.text_field "email" members); [discriminate|].
  destruct (Account.text_field "address" members); [discriminate|].
  destruct (Account.text_field "phone_number" members); [discriminate|].
  destruct (Account.date_field today members); [discriminate|].
  intros [= <-]. reflexivity.
Qed.

(** ** Properties of the handlers *)

Lemma full_dispatch_returns c s r s' :
  dispatch c s = (inr r, s') → full_dispatch c s = (r, s').
Proof. unfold full_dispatch. by intros ->. Qed.

Lemma full_dispatch_raises c s e s' :
  dispatch c s = (inl e, s') → full_dispatch c s = (handle_exception e, s').
Proof. unfold full_dispatch. by intros ->. Qed.

Lemma check_content_type_ok request media_type s :
  headers_get "Content-Type" (headers request) = Some media_type →
  media_type ≠ "" →
  check_content_type request media_type s = (inr (), s).
Proof.
  intros Hct Hne. unfold check_content_type. rewrite Hct. simpl.
  rewrite (bool_decide_eq_false_2 _ Hne), bool_decide_eq_true_2 by done.
  reflexivity.
Qed.

(** Past its guard, the create handler is its body: read the JSON,
    deserialize into a fresh record, insert, answer 201. *)
Lemma create_accounts_json today request s :
  content_type request = Some "application/json" →
  create_accounts today request s
  = (let* body := get_json request in
     let* account := Account.deserialize today Account.new body in
     let* account := Account.create account in
     ret (make_response (RResp (jsonify (JObject (Account.serialize account))))
            HTTP_201_CREATED [("Location", "/")])) s.
Proof.
  intros Hct. unfold create_accounts.
  rewrite bool_decide_eq_false_2 by (intros Hne; by apply Hne).
  unfold bind at 1. by rewrite check_content_type_ok.
Qed.

Lemma create_accounts_refused today request s :
  content_type request ≠ Some "application/json" →
  create_accounts today request s
  = (inr (make_response (RStr "Unsupported content type sent ")
            HTTP_415_UNSUPPORTED_MEDIA_TYPE []), s).
Proof.
  intros Hct. unfold create_accounts. by rewrite bool_decide_eq_true_2.
Qed.

(** C1. A POST to /accounts whose Content-Type is exactly application/json
    and whose body deserializes successfully is answered with status 201,
    the serialized created record as the body and a Location header; the
    created record is the one the table then holds under the fresh id. *)
Theorem create_accounts_created c s body account :
  endpoint c = POST_accounts →
  content_type (request c) = Some "application/json" →
  body_json (request c) = inr body →
  Account.deserialize (today c) Account.new body s = (inr account, s) →
  let created := Account.mk (Some (next_id s)) (Account.cols account) in
  let r := (full_dispatch c s).1 in
  let s' := (full_dispatch c s).2 in
  status_code r = 201
  ∧ sent_body r = Json (JObject (Account.serialize created))
  ∧ headers_get "Location" (resp_headers r) = Some "/"
  ∧ rows s' = <[next_id s := Account.cols account]> (rows s)
  ∧ (Account.find (next_id s) s').1 = inr (Some created).
Proof.
  intros Hep Hct Hbody Hde created.
  assert (Hrun : full_dispatch c s
    = (make_response (RResp (jsonify (JObject (Account.serialize created))))
         HTTP_201_CREATED [("Location", "/")],
       {| rows := <[next_id s := Account.cols account]> (rows s);
          next_id := next_id s + 1 |})).
  { apply full_dispatch_returns. unfold dispatch. rewrite Hep.
    rewrite create_accounts_json by done.
    unfold bind, get_json. rewrite Hbody. unfold ret at 1. by rewrite Hde. }
  rewrite Hrun. simpl. repeat split.
  unfold Account.find. simpl. by rewrite lookup_insert_eq.
Qed.

Lemma create_accounts_created_witness :
  content_type (request post_sam) = Some "application/json"
  ∧ status_code (full_dispatch post_sam empty_store).1 = 201
  ∧ sent_body (full_dispatch post_sam empty_store).1
    = Json (JObject (Account.serialize (Account.mk (Some 1) sam_row)))
  ∧ headers_get "Location" (resp_headers (full_dispatch post_sam empty_store).1)
    = Some "/"
  ∧ rows (full_dispatch post_sam empty_store).2 = <[1 := sam_row]> ∅
  ∧ (Account.find 1 (full_dispatch post_sam empty_store).2).1
    = inr (Some (Account.mk (Some 1) sam_row)).
Proof.
  split; [reflexivity|].
  apply (create_accounts_created post_sam empty_store (JObject sam)
           (Account.mk None sam_row)); reflexivity.
Defined.

(** C2. A POST to /accounts whose Content-Type is not exactly
    application/json is answered with 415 by the guard of the handler, a
    plain return that happens whatever reading the body would have done,
    and the table is left as it was. *)
Theorem create_accounts_unsupported_media_type c s :
  endpoint c = POST_accounts →
  content_type (request c) ≠ Some "application/json" →
  dispatch c s
  = (inr (make_response (RStr "Unsupported content type sent ") 415 []), s)
  ∧ status_code (full_dispatch c s).1 = 415
  ∧ (full_dispatch c s).2 = s.
Proof.
  intros Hep Hct.
  assert (Hrun : dispatch c s
    = (inr (make_response (RStr "Unsupported content type sent ") 415 []), s)).
  { unfold dispatch. rewrite Hep. by apply create_accounts_refused. }
  split; [done|]. by rewrite (full_dispatch_returns _ _ _ _ Hrun).
Qed.

Lemma create_accounts_unsupported_media_type_witness :
  content_type (request post_html) ≠ Some "application/json"
  ∧ dispatch post_html sam_store
    = (inr (make_response (RStr "Unsupported content type sent ") 415 []),
       sam_store)
  ∧ status_code (full_dispatch post_html sam_store).1 = 415
  ∧ (full_dispatch post_html sam_store).2 = sam_store.
Proof.
  split; [discriminate|].
  apply (create_accounts_unsupported_media_type post_html sam_store);
    [reflexivity|discriminate].
Defined.

(** C3. A POST to /accounts with Content-Type application/json whose body
    lacks one of name, email, address and phone_number is answered with 400
    and the table is left as it was. *)
Theorem create_accounts_missing_field c s members key :
  endpoint c = POST_accounts →
  content_type (request c) = Some "application/json" →
  body_json (request c) = inr (JObject members) →
  key ∈ required_fields →
  dict_get key members = None →
  status_code (full_dispatch c s).1 = 400 ∧ (full_dispatch c s).2 = s.
Proof.
  intros Hep Hct Hbody Hkey Hnone.
  destruct (deserialize_missing (today c) Account.new members key Hkey Hnone)
    as [msg Hde].
  assert (Hrun : dispatch c s = (inl (DataValidationError msg), s)).
  { unfold dispatch. rewrite Hep, create_accounts_json by done.
    unfold bind, get_json. rewrite Hbody. unfold ret at 1. by rewrite Hde. }
  by rewrite (full_dispatch_raises _ _ _ _ Hrun).
Qed.

Lemma create_accounts_missing_field_witness :
  dict_get "email" [("name", JString "not enough data")] = None
  ∧ status_code (full_dispatch post_name_only sam_store).1 = 400
  ∧ (full_dispatch post_name_only sam_store).2 = sam_store.
Proof.
  split; [reflexivity|].
  apply (create_accounts_missing_field post_name_only sam_store
           [("name", JString "not enough data")] "email");
    try reflexivity.
  unfold required_fields. apply list_elem_of_further, list_elem_of_here.
Defined.

(** C10. In the create handler the abort of [check_content_type] cannot be
    reached: once the guard of the handler has let the request through,
    [check_content_type "application/json"] returns. *)
Theorem check_content_type_returns_in_create request s :
  bool_decide (content_type request ≠ Some "application/json") = false →
  check_content_type request "application/json" s = (inr (), s).
Proof.
  intros Hguard. apply check_content_type_ok; [|done].
  apply bool_decide_eq_false in Hguard.
  destruct (decide (content_type request = Some "application/json")); [done|].
  by destruct Hguard.
Qed.

Lemma check_content_type_returns_in_create_witness :
  bool_decide (content_type (request post_sam) ≠ Some "application/json")
  = false
  ∧ check_content_type (request post_sam) "application/json" empty_store
    = (inr (), empty_store).
Proof.
  split; [reflexivity|].
  apply (check_content_type_returns_in_create (request post_sam) empty_store).
  reflexivity.
Defined.

Lemma read_account_run id s :
  read_account id s
  = (inr match rows s !! id with
         | None => make_response (RStr "Account with id 0 not found") 404 []
         | Some row =>
             make_response
               (RDict (Account.serialize (Account.mk (Some id) row))) 200 []
         end, s).
Proof.
  unfold read_account, bind, Account.find.
  destruct (rows s !! id); reflexivity.
Qed.

Lemma delete_account_run id s :
  delete_account id s
  = match rows s !! id with
    | None =>
        (inr (make_response (RStr "Could not find account to delete") 404 []),
         s)
    | Some _ =>
        (inr (make_response (RStr ("Account with " +:+ str id +:+ " deleted"))
                204 []),
         {| rows := delete id (rows s); next_id := next_id s |})
    end.
Proof.
  unfold delete_account, bind, Account.find.
  destruct (rows s !! id); reflexivity.
Qed.

Lemma update_account_absent today request id body s :
  body_json request = inr body →
  rows s !! id = None →
  update_account today request id s
  = (inr (make_response (RStr "Could not find account to update") 404 []), s).
Proof.
  intros Hbody Hnone. unfold update_account, bind, get_json, Account.find.
  rewrite Hbody. unfold ret at 1. by rewrite Hnone.
Qed.

Lemma update_account_unreadable today request id e s :
  body_json request = inl e →
  update_account today request id s
  = (inl (HTTPException match e with
                         | BadRequest => 400
                         | UnsupportedMediaType => 415
                         end
            match e with
            | BadRequest => "Failed to decode JSON object"
            | UnsupportedMediaType => "Did not attempt to load JSON data"
            end), s).
Proof.
  intros Hbody. unfold update_account, bind, get_json. rewrite Hbody.
  by destruct e.
Qed.

Lemma update_account_present today request id body row s :
  body_json request = inr body →
  rows s !! id = Some row →
  update_account today request id s
  = (let* account :=
       Account.deserialize today (Account.mk (Some id) row) body in
     let* _ := Account.update account in
     ret (make_response (RDict (Account.serialize account)) 200 [])) s.
Proof.
  intros Hbody Hrow. unfold update_account, get_json, Account.find.
  rewrite Hbody. unfold bind at 1, ret at 1. unfold bind at 1.
  by rewrite Hrow.
Qed.

Lemma deserialize_name today self members new_name account s :
  dict_get "name" members = Some (JString new_name) →
  Account.deserialize today self (JObject members) s = (inr account, s) →
  name (Account.cols account) = Some new_name.
Proof.
  intros Hname. unfold Account.deserialize, bind, lift, ret.
  unfold Account.text_field at 1. rewrite Hname.
  destruct (Account.text_field "email" members); [discriminate|].
  destruct (Account.text_field "address" members); [discriminate|].
  destruct (Account.text_field "phone_number" members); [discriminate|].
  destruct (Account.date_field today members); [discriminate|].
  by intros [= <-].
Qed.

(** C4, as the handlers have it.  For an id without a record, GET and
    DELETE are answered with 404, and so is a PUT whose body
    [request.get_json()] could read; the table is left as it was.  (The
    update handler reads the body before it looks the id up, so a PUT with
    an unreadable body is answered with the error of the reading.) *)
Theorem absent_id_not_found c s id :
  rows s !! id = None →
  endpoint c = GET_account id ∨ endpoint c = DELETE_account id
  ∨ (endpoint c = PUT_account id ∧ reads_json (request c) = true) →
  status_code (full_dispatch c s).1 = 404 ∧ (full_dispatch c s).2 = s.
Proof.
  intros Hnone [Hep|[Hep|[Hep Hjson]]].
  - assert (Hrun : dispatch c s
      = (inr (make_response (RStr "Account with id 0 not found") 404 []), s)).
    { unfold dispatch. rewrite Hep, read_account_run. by rewrite Hnone. }
    by rewrite (full_dispatch_returns _ _ _ _ Hrun).
  - assert (Hrun : dispatch c s
      = (inr (make_response (RStr "Could not find account to delete") 404 []),
         s)).
    { unfold dispatch. rewrite Hep, delete_account_run. by rewrite Hnone. }
    by rewrite (full_dispatch_returns _ _ _ _ Hrun).
  - unfold reads_json in Hjson.
    destruct (body_json (request c)) as [|body] eqn:Hbody; [discriminate|].
    assert (Hrun : dispatch c s
      = (inr (make_response (RStr "Could not find account to update") 404 []),
         s)).
    { unfold dispatch. rewrite Hep. by eapply update_account_absent. }
    by rewrite (full_dispatch_returns _ _ _ _ Hrun).
Qed.

Lemma absent_id_not_found_witness :
  rows sam_store !! 2 = None
  ∧ status_code (full_dispatch (put_sam_renamed 2) sam_store).1 = 404
  ∧ (full_dispatch (put_sam_renamed 2) sam_store).2 = sam_store.
Proof.
  split; [reflexivity|].
  apply (absent_id_not_found (put_sam_renamed 2) sam_store 2); [reflexivity|].
  right. right. split; reflexivity.
Defined.

(** C4 as it is stated fails on a PUT: with a body that is not a JSON
    document the update handler answers 400 for an id without a record. *)
Lemma absent_id_put_unreadable_body :
  rows empty_store !! 7 = None
  ∧ status_code (full_dispatch (put_unreadable 7) empty_store).1 = 400
  ∧ status_code (full_dispatch (put_unreadable 7) empty_store).1 ≠ 404.
Proof. repeat split. vm_compute. discriminate. Qed.

(** C5. A DELETE of an id whose record exists is answered with status 204
    and nothing is sent as the body (the text the handler puts into the
    response is dropped with that status); the row is gone from the table. *)
Theorem delete_account_no_content c s id row :
  endpoint c = DELETE_account id →
  rows s !! id = Some row →
  let r := (full_dispatch c s).1 in
  let s' := (full_dispatch c s).2 in
  status_code r = 204
  ∧ sent_body r = Text ""
  ∧ data r = Text ("Account with " +:+ str id +:+ " deleted")
  ∧ rows s' = delete id (rows s).
Proof.
  intros Hep Hrow.
  assert (Hrun : dispatch c s
    = (inr (make_response (RStr ("Account with " +:+ str id +:+ " deleted"))
              204 []),
       {| rows := delete id (rows s); next_id := next_id s |})).
  { unfold dispatch. rewrite Hep, delete_account_run. by rewrite Hrow. }
  rewrite (full_dispatch_returns _ _ _ _ Hrun). by simpl.
Qed.

Lemma delete_account_no_content_witness :
  rows sam_store !! 1 = Some sam_row
  ∧ status_code (full_dispatch (delete_one 1) sam_store).1 = 204
  ∧ sent_body (full_dispatch (delete_one 1) sam_store).1 = Text ""
  ∧ data (full_dispatch (delete_one 1) sam_store).1
    = Text "Account with 1 deleted"
  ∧ rows (full_dispatch (delete_one 1) sam_store).2 = delete 1 (rows sam_store).
Proof.
  split; [reflexivity|].
  apply (delete_account_no_content (delete_one 1) sam_store 1 sam_row);
    reflexivity.
Defined.

(** C6, a defect of the read handler.  A GET of an id without a record is
    answered with 404 and the body "Account with id 0 not found", whatever
    the id asked for: the placeholder of the f-string holds the constant 0
    where the delete handler interpolates the id, so the message names
    neither the id nor a literal pair of braces. *)
Theorem read_account_not_found_body c s id :
  endpoint c = GET_account id →
  rows s !! id = None →
  status_code (full_dispatch c s).1 = 404
  ∧ sent_body (full_dispatch c s).1 = Text "Account with id 0 not found".
Proof.
  intros Hep Hnone.
  assert (Hrun : dispatch c s
    = (inr (make_response (RStr "Account with id 0 not found") 404 []), s)).
  { unfold dispatch. rewrite Hep, read_account_run. by rewrite Hnone. }
  by rewrite (full_dispatch_returns _ _ _ _ Hrun).
Qed.

Lemma read_account_not_found_body_witness :
  rows sam_store !! 5 = None
  ∧ status_code (full_dispatch (get_one 5) sam_store).1 = 404
  ∧ sent_body (full_dispatch (get_one 5) sam_store).1
    = Text "Account with id 0 not found".
Proof.
  split; [reflexivity|].
  apply (read_account_not_found_body (get_one 5) sam_store 5); reflexivity.
Defined.

(** The message of the 404 holds the digit, not the braces. *)
Lemma read_account_not_found_body_has_no_braces :
  rows sam_store !! 5 = None
  ∧ sent_body (full_dispatch (get_one 5) sam_store).1
    ≠ Text "Account with id {0} not found".
Proof. split; [reflexivity|]. vm_compute. discriminate. Qed.

(** C8. A PUT to the id of an existing record with a valid body carrying a
    new name is answered with status 200 and the record under its new name;
    the id stays what it was, and every other column is taken from the body
    (the columns are those the body gives to a blank record). *)
Theorem update_account_replaces_fields c s id row members new_name account :
  endpoint c = PUT_account id →
  rows s !! id = Some row →
  body_json (request c) = inr (JObject members) →
  dict_get "name" members = Some (JString new_name) →
  Account.deserialize (today c) (Account.mk (Some id) row) (JObject members) s
  = (inr account, s) →
  let r := (full_dispatch c s).1 in
  let s' := (full_dispatch c s).2 in
  status_code r = 200
  ∧ sent_body r = Json (JObject (Account.serialize account))
  ∧ dict_get "name" (Account.serialize account) = Some (JString new_name)
  ∧ dict_get "id" (Account.serialize account) = Some (JInt id)
  ∧ Account.deserialize (today c) Account.new (JObject members) s
    = (inr (Account.mk None (Account.cols account)), s)
  ∧ rows s' = <[id := Account.cols account]> (rows s)
  ∧ next_id s' = next_id s.
Proof.
  intros Hep Hrow Hbody Hname Hde.
  destruct (deserialize_ok_inv _ _ _ _ _ _ Hde) as (_ & Hid & _).
  simpl in Hid.
  assert (Hrun : dispatch c s
    = (inr (make_response (RDict (Account.serialize account)) 200 []),
       {| rows := <[id := Account.cols account]> (rows s);
          next_id := next_id s |})).
  { unfold dispatch. rewrite Hep.
    rewrite (update_account_present _ _ _ _ _ _ Hbody Hrow).
    unfold bind. rewrite Hde. unfold Account.update. by rewrite Hid. }
  rewrite (full_dispatch_returns _ _ _ _ Hrun). simpl.
  pose proof (deserialize_name _ _ _ _ _ _ Hname Hde) as Hn.
  pose proof (deserialize_cols _ _ Account.new _ _ _ Hde) as Hc.
  unfold Account.serialize. simpl. rewrite Hn, Hid. done.
Qed.

Lemma update_account_replaces_fields_witness :
  rows sam_store !! 1 = Some sam_row
  ∧ status_code (full_dispatch (put_sam_renamed 1) sam_store).1 = 200
  ∧ sent_body (full_dispatch (put_sam_renamed 1) sam_store).1
    = Json (JObject (Account.serialize (Account.mk (Some 1) sam_renamed_row)))
  ∧ dict_get "name" (Account.serialize (Account.mk (Some 1) sam_renamed_row))
    = Some (JString "Sam A")
  ∧ dict_get "id" (Account.serialize (Account.mk (Some 1) sam_renamed_row))
    = Some (JInt 1)
  ∧ Account.deserialize a_day Account.new (JObject sam_renamed) sam_store
    = (inr (Account.mk None sam_renamed_row), sam_store)
  ∧ rows (full_dispatch (put_sam_renamed 1) sam_store).2
    = <[1 := sam_renamed_row]> (rows sam_store)
  ∧ next_id (full_dispatch (put_sam_renamed 1) sam_store).2 = next_id sam_store.
Proof.
  split; [reflexivity|].
  apply (update_account_replaces_fields (put_sam_renamed 1) sam_store 1
           sam_row sam_renamed "Sam A" (Account.mk (Some 1) sam_renamed_row));
    reflexivity.
Defined.

(** ** Sequences of calls *)

Lemma list_accounts_run s :
  list_accounts s
  = (inr (make_response
            (RResp (jsonify (JArray
               ((λ kr, JObject (Account.serialize (Account.mk (Some kr.1) kr.2)))
                  <$> map_to_list (rows s))))) 200 []), s).
Proof.
  unfold list_accounts, bind, Account.all, ret. simpl.
  by rewrite <- list_fmap_compose.
Qed.

Lemma serve_cons c cs s :
  serve (c :: cs) s
  = ((full_dispatch c s).1 :: (serve cs (full_dispatch c s).2).1,
     (serve cs (full_dispatch c s).2).2).
Proof.
  cbn [serve]. destruct (full_dispatch c s) as [r s'].
  cbn [fst snd]. by destruct (serve cs s') as [rs s''].
Qed.

Lemma full_dispatch_effect c s :
  effect c s (full_dispatch c s).1 (full_dispatch c s).2.
Proof.
  destruct c as [ep request today]. destruct ep as [| | | |id|id|id].
  - by apply effect_none.
  - by apply effect_none.
  - unfold full_dispatch, dispatch. simpl.
    destruct (decide (content_type request = Some "application/json"))
      as [Hct|Hct].
    + rewrite create_accounts_json by done. unfold bind, get_json.
      destruct (body_json request) as [[]|body]; try by apply effect_none.
      cbn [ret].
      destruct (deserialize_cases today Account.new body) as [[msg E]|[row E]];
        rewrite E; [by apply effect_none|].
      by apply effect_created.
    + rewrite create_accounts_refused by done. by apply effect_none.
  - by apply effect_none.
  - unfold full_dispatch, dispatch. simpl. rewrite read_account_run.
    by apply effect_none.
  - unfold full_dispatch, dispatch. simpl.
    destruct (body_json request) as [e|body] eqn:Hbody.
    { rewrite (update_account_unreadable _ _ _ _ _ Hbody).
      by apply effect_none. }
    destruct (rows s !! id) as [row|] eqn:Hrow.
    + rewrite (update_account_present _ _ _ _ _ _ Hbody Hrow). unfold bind.
      destruct (deserialize_cases today (Account.mk (Some id) row) body)
        as [[msg E]|[row' E]]; rewrite E; [by apply effect_none|].
      simpl. by eapply effect_updated.
    + rewrite (update_account_absent _ _ _ _ _ Hbody Hrow).
      by apply effect_none.
  - unfold full_dispatch, dispatch. simpl. rewrite delete_account_run.
    destruct (rows s !! id) as [row|] eqn:Hrow; [|by apply effect_none].
    by eapply effect_deleted.
Qed.

Lemma effect_well_formed c s r s' :
  well_formed s → effect c s r s' → well_formed s'.
Proof.
  intros Hwf Heff k. destruct Heff as [_|row _ _|id row row' _ Hrow|id row _ _];
    simpl.
  - apply Hwf.
  - destruct (decide (next_id s = k)) as [<-|Hne]; [lia|].
    rewrite lookup_insert_ne by done. intros Hk. specialize (Hwf k Hk). lia.
  - destruct (decide (id = k)) as [<-|Hne]; [intros _; by apply Hwf|].
    rewrite lookup_insert_ne by done. apply Hwf.
  - destruct (decide (id = k)) as [<-|Hne].
    + rewrite lookup_delete_eq. by intros [? ?].
    + rewrite lookup_delete_ne by done. apply Hwf.
Qed.

Lemma well_formed_fresh s : well_formed s → rows s !! next_id s = None.
Proof.
  intros Hwf. destruct (rows s !! next_id s) eqn:E; [|done].
  assert (next_id s < next_id s) by (apply Hwf; by rewrite E). lia.
Qed.

Lemma effect_size c s r s' :
  well_formed s → is_delete c = false → effect c s r s' →
  size (rows s')
  = (size (rows s) + if successful_create (c, r) then 1 else 0)%nat.
Proof.
  intros Hwf Hnd Heff.
  destruct Heff as [Hno|row Hyes _|id row row' Hep Hrow|id row Hep _]; simpl.
  - rewrite Hno. lia.
  - rewrite Hyes, map_size_insert_None by by apply well_formed_fresh. lia.
  - rewrite map_size_insert_Some by by rewrite Hrow.
    unfold successful_create. simpl. rewrite Hep. lia.
  - unfold is_delete in Hnd. by rewrite Hep in Hnd.
Qed.

Lemma successful_creates_cons c cs r rs :
  successful_creates (c :: cs) (r :: rs)
  = ((if successful_create (c, r) then 1 else 0) + successful_creates cs rs)%nat.
Proof.
  unfold successful_creates. simpl.
  by destruct (successful_create (c, r)).
Qed.

(** Without deletes, the table grows by one row per successful create. *)
Lemma serve_size cs : ∀ s,
  well_formed s →
  Forall (λ c, is_delete c = false) cs →
  size (rows (serve cs s).2)
  = (size (rows s) + successful_creates cs (serve cs s).1)%nat.
Proof.
  induction cs as [|c cs IH]; intros s Hwf Hnd.
  - simpl. unfold successful_creates. simpl. lia.
  - apply Forall_cons in Hnd as [Hc Hcs].
    pose proof (full_dispatch_effect c s) as Heff.
    rewrite serve_cons. cbn [fst snd].
    rewrite successful_creates_cons, IH; [|by eapply effect_well_formed|done].
    rewrite (effect_size _ _ _ _ Hwf Hc Heff). lia.
Qed.

Lemma effect_absent c s r s' id :
  rows s !! id = None →
  (successful_create (c, r) = true → assigned_id r ≠ Some id) →
  effect c s r s' →
  rows s' !! id = None.
Proof.
  intros Hnone Hfresh Heff.
  destruct Heff as [_|row Hyes Hid|id' row row' _ Hrow|id' row _ _];
    simpl; try done.
  - rewrite lookup_insert_ne; [done|]. intros E. apply (Hfresh Hyes).
    by rewrite Hid, E.
  - rewrite lookup_insert_ne; [done|]. intros ->. congruence.
  - destruct (decide (id' = id)) as [->|Hne].
    + apply lookup_delete_eq.
    + by rewrite lookup_delete_ne.
Qed.

(** An id without a row stays without one for as long as no create is
    given that id. *)
Lemma serve_absent id cs : ∀ s,
  rows s !! id = None →
  Forall (λ cr, successful_create cr = true → assigned_id cr.2 ≠ Some id)
    (zip cs (serve cs s).1) →
  rows (serve cs s).2 !! id = None.
Proof.
  induction cs as [|c cs IH]; intros s Hnone Hfresh; [done|].
  rewrite serve_cons in *. cbn [fst snd zip zip_with] in *.
  apply Forall_cons in Hfresh as [Hc Hcs].
  apply IH; [|done].
  eapply effect_absent; [done|exact Hc|apply full_dispatch_effect].
Qed.

Lemma effect_next_id c s r s' : effect c s r s' → next_id s ≤ next_id s'.
Proof. destruct 1; simpl; lia. Qed.

(** The sequence only moves forward: an id below it is never given out. *)
Lemma serve_never_reassigns id cs : ∀ s,
  id < next_id s →
  Forall (λ cr, successful_create cr = true → assigned_id cr.2 ≠ Some id)
    (zip cs (serve cs s).1).
Proof.
  induction cs as [|c cs IH]; intros s Hlt; [by apply Forall_nil|].
  rewrite serve_cons. cbn [fst snd zip zip_with].
  pose proof (full_dispatch_effect c s) as Heff.
  apply Forall_cons. split.
  - cbn [snd]. intros Hyes.
    destruct Heff as [Hno|row _ Hid|id' row row' Hep _|id' row Hep _].
    + congruence.
    + rewrite Hid. intros [= E]. lia.
    + unfold successful_create in Hyes. simpl in Hyes. by rewrite Hep in Hyes.
    + unfold successful_create in Hyes. simpl in Hyes. by rewrite Hep in Hyes.
  - apply IH. apply effect_next_id in Heff. lia.
Qed.

Lemma delete_account_absent c s id :
  endpoint c = DELETE_account id → rows (full_dispatch c s).2 !! id = None.
Proof.
  intros Hep. unfold full_dispatch, dispatch. rewrite Hep, delete_account_run.
  destruct (rows s !! id) eqn:Hrow; simpl; [apply lookup_delete_eq|done].
Qed.

Lemma well_formed_empty : well_formed empty_store.
Proof. intros k. simpl. rewrite lookup_empty. by intros [? ?]. Qed.

Lemma serve_well_formed cs : ∀ s, well_formed s → well_formed (serve cs s).2.
Proof.
  induction cs as [|c cs IH]; intros s Hwf; [done|].
  rewrite serve_cons. apply IH.
  eapply effect_well_formed; [done|apply full_dispatch_effect].
Qed.

(** C7. Starting from the empty table, after calls among which N are
    successful creates and none is a DELETE, GET /accounts is answered with
    status 200 and an array of exactly N records. *)
Theorem list_accounts_counts_creates (N : nat) cs g :
  Forall (λ c, is_delete c = false) cs →
  successful_creates cs (serve cs empty_store).1 = N →
  endpoint g = GET_accounts →
  let s := (serve cs empty_store).2 in
  ∃ items,
    status_code (full_dispatch g s).1 = 200
    ∧ sent_body (full_dispatch g s).1 = Json (JArray items)
    ∧ length items = N
    ∧ (full_dispatch g s).2 = s.
Proof.
  intros Hnd HN Hep s.
  pose proof (serve_size cs empty_store well_formed_empty Hnd) as Hsize.
  fold s in Hsize. rewrite HN in Hsize.
  eexists. unfold full_dispatch, dispatch. rewrite Hep, list_accounts_run.
  cbn [fst snd status_code make_response]. repeat split.
  rewrite length_fmap, length_map_to_list, Hsize.
  unfold empty_store. cbn [rows]. by rewrite map_size_empty.
Qed.

Lemma list_accounts_counts_creates_witness :
  successful_creates [post_sam; post_name_only; put_sam_renamed 1; post_sam]
    (serve [post_sam; post_name_only; put_sam_renamed 1; post_sam]
       empty_store).1 = 2%nat
  ∧ ∃ items,
      let s := (serve [post_sam; post_name_only; put_sam_renamed 1; post_sam]
                  empty_store).2 in
      status_code (full_dispatch get_all s).1 = 200
      ∧ sent_body (full_dispatch get_all s).1 = Json (JArray items)
      ∧ length items = 2%nat
      ∧ (full_dispatch get_all s).2 = s.
Proof.
  split; [reflexivity|].
  apply (list_accounts_counts_creates 2
           [post_sam; post_name_only; put_sam_renamed 1; post_sam] get_all);
    [|reflexivity|reflexivity].
  repeat (constructor; [reflexivity|]). constructor.
Defined.

(** C9. Once a DELETE of an id has been answered with 204, every later GET
    of that id is answered with 404, whatever calls are served in between,
    unless one of them is a create that is given the id again. *)
Theorem deleted_account_stays_deleted c s id cs g :
  endpoint c = DELETE_account id →
  status_code (full_dispatch c s).1 = 204 →
  let s1 := (full_dispatch c s).2 in
  Forall (λ cr, successful_create cr = true → assigned_id cr.2 ≠ Some id)
    (zip cs (serve cs s1).1) →
  endpoint g = GET_account id →
  status_code (full_dispatch g (serve cs s1).2).1 = 404
  ∧ (full_dispatch g (serve cs s1).2).2 = (serve cs s1).2.
Proof.
  intros Hep _ s1 Hfresh Hg.
  assert (Hnone : rows (serve cs s1).2 !! id = None).
  { apply serve_absent; [|done]. by apply delete_account_absent. }
  unfold full_dispatch, dispatch. rewrite Hg, read_account_run.
  by rewrite Hnone.
Qed.

Lemma deleted_account_stays_deleted_witness :
  status_code (full_dispatch (delete_one 1) sam_store).1 = 204
  ∧ status_code
      (full_dispatch (get_one 1)
         (serve [post_sam; get_one 1; put_sam_renamed 1]
            (full_dispatch (delete_one 1) sam_store).2).2).1 = 404
  ∧ (full_dispatch (get_one 1)
       (serve [post_sam; get_one 1; put_sam_renamed 1]
          (full_dispatch (delete_one 1) sam_store).2).2).2
    = (serve [post_sam; get_one 1; put_sam_renamed 1]
         (full_dispatch (delete_one 1) sam_store).2).2.
Proof.
  split; [reflexivity|].
  apply (deleted_account_stays_deleted (delete_one 1) sam_store 1
           [post_sam; get_one 1; put_sam_renamed 1] (get_one 1));
    [reflexivity|reflexivity| |reflexivity].
  repeat (constructor; [vm_compute; congruence|]). constructor.
Defined.

(** On a table whose ids all come from the sequence, as every table grown
    from the empty one is, the id of a deleted record is never given out
    again: no later GET of it succeeds. *)
Corollary deleted_account_gone_for_good c s id row cs g :
  well_formed s →
  endpoint c = DELETE_account id →
  rows s !! id = Some row →
  endpoint g = GET_account id →
  status_code (full_dispatch g (serve cs (full_dispatch c s).2).2).1 = 404.
Proof.
  intros Hwf Hep Hrow Hg.
  assert (Hlt : id < next_id (full_dispatch c s).2).
  { pose proof (effect_next_id _ _ _ _ (full_dispatch_effect c s)).
    assert (id < next_id s) by (apply Hwf; by rewrite Hrow). lia. }
  assert (Hnone : rows (serve cs (full_dispatch c s).2).2 !! id = None).
  { apply serve_absent; [by apply delete_account_absent|].
    by apply serve_never_reassigns. }
  unfold full_dispatch at 1, dispatch. rewrite Hg, read_account_run.
  by rewrite Hnone.
Qed.


(** ** Further properties of the handlers *)

(** What a POST to /accounts can do: create, or answer 400 or 415 and leave
    the table alone. *)
Lemma post_accounts_cases c s :
  endpoint c = POST_accounts →
  (∃ body row,
      content_type (request c) = Some "application/json"
      ∧ body_json (request c) = inr body
      ∧ (∀ s0, Account.deserialize (today c) Account.new body s0
               = (inr (Account.mk None row), s0))
      ∧ full_dispatch c s
        = (make_response
             (RResp (jsonify (JObject
                (Account.serialize (Account.mk (Some (next_id s)) row)))))
             201 [("Location", "/")],
           {| rows := <[next_id s := row]> (rows s);
              next_id := next_id s + 1 |}))
  ∨ ((full_dispatch c s).2 = s
     ∧ (status_code (full_dispatch c s).1 = 400
        ∨ status_code (full_dispatch c s).1 = 415)).
Proof.
  intros Hep. unfold full_dispatch, dispatch. rewrite Hep.
  destruct (decide (content_type (request c) = Some "application/json"))
    as [Hct|Hct].
  - rewrite create_accounts_json by done. unfold bind, get_json.
    destruct (body_json (request c)) as [[]|body] eqn:Hbody;
      [right; by auto|right; by auto|].
    cbn [ret].
    destruct (deserialize_cases (today c) Account.new body)
      as [[msg E]|[row E]]; rewrite E; [right; by auto|].
    left. exists body, row. by repeat split.
  - rewrite create_accounts_refused by done. right. by auto.
Qed.

(** What a PUT to /accounts/<id> can do: rewrite the row of the id, or
    answer 400, 404 or 415 and leave the table alone. *)
Lemma put_account_cases c s id :
  endpoint c = PUT_account id →
  (∃ body row row',
      body_json (request c) = inr body
      ∧ rows s !! id = Some row
      ∧ (∀ s0, Account.deserialize (today c) (Account.mk (Some id) row) body s0
               = (inr (Account.mk (Some id) row'), s0))
      ∧ full_dispatch c s
        = (make_response
             (RDict (Account.serialize (Account.mk (Some id) row'))) 200 [],
           {| rows := <[id := row']> (rows s); next_id := next_id s |}))
  ∨ ((full_dispatch c s).2 = s
     ∧ (status_code (full_dispatch c s).1 = 400
        ∨ status_code (full_dispatch c s).1 = 404
        ∨ status_code (full_dispatch c s).1 = 415)).
Proof.
  intros Hep. unfold full_dispatch, dispatch. rewrite Hep.
  destruct (body_json (request c)) as [e|body] eqn:Hbody.
  { rewrite (update_account_unreadable _ _ _ _ _ Hbody).
    right. destruct e; by auto. }
  destruct (rows s !! id) as [row|] eqn:Hrow.
  - rewrite (update_account_present _ _ _ _ _ _ Hbody Hrow). unfold bind.
    destruct (deserialize_cases (today c) (Account.mk (Some id) row) body)
      as [[msg E]|[row' E]]; rewrite E; [right; by auto|].
    left. exists body, row, row'. by repeat split.
  - rewrite (update_account_absent _ _ _ _ _ Hbody Hrow). right. by auto.
Qed.

Lemma delete_account_cases c s id :
  endpoint c = DELETE_account id →
  full_dispatch c s
  = match rows s !! id with
    | None =>
        (make_response (RStr "Could not find account to delete") 404 [], s)
    | Some _ =>
        (make_response (RStr ("Account with " +:+ str id +:+ " deleted"))
           204 [],
         {| rows := delete id (rows s); next_id := next_id s |})
    end.
Proof.
  intros Hep. unfold full_dispatch, dispatch. rewrite Hep, delete_account_run.
  by destruct (rows s !! id).
Qed.

Lemma get_cases c s :
  is_get c = true →
  (full_dispatch c s).2 = s
  ∧ (status_code (full_dispatch c s).1 = 200
     ∨ ∃ id, endpoint c = GET_account id ∧ rows s !! id = None
             ∧ status_code (full_dispatch c s).1 = 404).
Proof.
  unfold is_get, full_dispatch, dispatch.
  destruct (endpoint c) as [| | | |id|id|id] eqn:Hep; try discriminate;
    intros _; try by auto.
  rewrite read_account_run.
  destruct (rows s !! id) eqn:Hrow; simpl; [by auto|].
  split; [done|]. right. by exists id.
Qed.

(** X1. [check_content_type] returns exactly when the Content-Type header
    is present, non-empty and equal to the media type asked for; in every
    other case, a missing or an empty header included, it aborts with 415
    and the message naming the media type.  It never touches the table. *)
Theorem check_content_type_returns_iff request media_type s :
  (check_content_type request media_type s = (inr (), s)
   ↔ headers_get "Content-Type" (headers request) = Some media_type
     ∧ media_type ≠ "")
  ∧ (check_content_type request media_type s = (inr (), s)
     ∨ check_content_type request media_type s
       = (inl (HTTPException 415 ("Content-Type must be " +:+ media_type)), s)).
Proof.
  unfold check_content_type, truthy.
  destruct (headers_get "Content-Type" (headers request)) as [ct|]; simpl.
  - destruct (decide (ct = "")) as [->|Hne].
    + rewrite bool_decide_eq_true_2 by done. simpl. split; [|by right].
      split; [discriminate|]. intros [[= <-] Hne]. by destruct Hne.
    + rewrite (bool_decide_eq_false_2 _ Hne). simpl.
      destruct (decide (Some ct = Some media_type)) as [E|E].
      * rewrite bool_decide_eq_true_2 by done. injection E as <-.
        split; [|by left]. by split.
      * rewrite bool_decide_eq_false_2 by done. split; [|by right].
        split; [discriminate|]. by intros [? _].
  - split; [|by right]. split; [discriminate|]. by intros [? _].
Qed.

(** X2. On a table grown from the empty one, a POST to /accounts has three
    outcomes only: 201 with exactly one row added, under the next id of the
    sequence, which had no row before and which the response reports, every
    other row staying as it was; or 400 or 415 with the table left as it
    was. *)
Theorem create_accounts_outcomes cs c :
  endpoint c = POST_accounts →
  let s := (serve cs empty_store).2 in
  let r := (full_dispatch c s).1 in
  let s' := (full_dispatch c s).2 in
  (status_code r = 201
   ∧ assigned_id r = Some (next_id s)
   ∧ rows s !! next_id s = None
   ∧ is_Some (rows s' !! next_id s)
   ∧ (∀ k, k ≠ next_id s → rows s' !! k = rows s !! k)
   ∧ size (rows s') = S (size (rows s))
   ∧ next_id s' = next_id s + 1)
  ∨ ((status_code r = 400 ∨ status_code r = 415) ∧ s' = s).
Proof.
  intros Hep s.
  assert (Hfresh : rows s !! next_id s = None).
  { apply well_formed_fresh, serve_well_formed, well_formed_empty. }
  destruct (post_accounts_cases c s Hep)
    as [(body & row & _ & _ & _ & Hrun)|[Hs Hst]]; [left|right; by auto].
  rewrite Hrun. simpl. split; [done|]. split; [done|]. split; [done|].
  split; [by rewrite lookup_insert_eq|]. split.
  - intros k Hk. by rewrite lookup_insert_ne.
  - by rewrite map_size_insert_None.
Qed.

Lemma create_accounts_outcomes_witness :
  endpoint post_sam = POST_accounts
  ∧ let s := (serve [post_sam; delete_one 1] empty_store).2 in
    let r := (full_dispatch post_sam s).1 in
    let s' := (full_dispatch post_sam s).2 in
    (status_code r = 201
     ∧ assigned_id r = Some (next_id s)
     ∧ rows s !! next_id s = None
     ∧ is_Some (rows s' !! next_id s)
     ∧ (∀ k, k ≠ next_id s → rows s' !! k = rows s !! k)
     ∧ size (rows s') = S (size (rows s))
     ∧ next_id s' = next_id s + 1)
    ∨ ((status_code r = 400 ∨ status_code r = 415) ∧ s' = s).
Proof.
  split; [reflexivity|].
  apply (create_accounts_outcomes [post_sam; delete_one 1] post_sam).
  reflexivity.
Defined.

(** X3. A GET of an id that has a row is answered with status 200 and the
    serialized record of that very id, and leaves the table as it was. *)
Theorem read_account_found c s id row :
  endpoint c = GET_account id →
  rows s !! id = Some row →
  status_code (full_dispatch c s).1 = 200
  ∧ sent_body (full_dispatch c s).1
    = Json (JObject (Account.serialize (Account.mk (Some id) row)))
  ∧ assigned_id (full_dispatch c s).1 = Some id
  ∧ (full_dispatch c s).2 = s.
Proof.
  intros Hep Hrow. unfold full_dispatch, dispatch.
  rewrite Hep, read_account_run, Hrow. by simpl.
Qed.

Lemma read_account_found_witness :
  rows sam_store !! 1 = Some sam_row
  ∧ status_code (full_dispatch (get_one 1) sam_store).1 = 200
  ∧ sent_body (full_dispatch (get_one 1) sam_store).1
    = Json (JObject (Account.serialize (Account.mk (Some 1) sam_row)))
  ∧ assigned_id (full_dispatch (get_one 1) sam_store).1 = Some 1
  ∧ (full_dispatch (get_one 1) sam_store).2 = sam_store.
Proof.
  split; [reflexivity|].
  apply (read_account_found (get_one 1) sam_store 1 sam_row); reflexivity.
Defined.

(** X4. A PUT to the id of an existing record whose body lacks a required
    field is answered with 400, and the record keeps all its columns: the
    handler deserializes before it persists anything. *)
Theorem update_account_missing_field c s id row members key :
  endpoint c = PUT_account id →
  rows s !! id = Some row →
  body_json (request c) = inr (JObject members) →
  key ∈ required_fields →
  dict_get key members = None →
  status_code (full_dispatch c s).1 = 400 ∧ (full_dispatch c s).2 = s.
Proof.
  intros Hep Hrow Hbody Hkey Hnone.
  destruct (deserialize_missing (today c) (Account.mk (Some id) row)
              members key Hkey Hnone) as [msg Hde].
  unfold full_dispatch, dispatch.
  rewrite Hep, (update_account_present _ _ _ _ _ _ Hbody Hrow).
  unfold bind. by rewrite Hde.
Qed.

Lemma update_account_missing_field_witness :
  rows sam_store !! 1 = Some sam_row
  ∧ dict_get "address" [("name", JString "not enough data")] = None
  ∧ status_code (full_dispatch (put_name_only 1) sam_store).1 = 400
  ∧ (full_dispatch (put_name_only 1) sam_store).2 = sam_store.
Proof.
  split; [reflexivity|]. split; [reflexivity|].
  apply (update_account_missing_field (put_name_only 1) sam_store 1 sam_row
           [("name", JString "not enough data")] "address");
    try reflexivity.
  unfold required_fields.
  apply list_elem_of_further, list_elem_of_further, list_elem_of_here.
Defined.

(** X5. A PUT to /accounts/<id>, whatever its outcome, touches no row but
    that of the id, neither adds nor removes an id, and draws nothing from
    the id sequence. *)
Theorem update_account_frame c s id :
  endpoint c = PUT_account id →
  let s' := (full_dispatch c s).2 in
  next_id s' = next_id s
  ∧ dom (rows s') = dom (rows s)
  ∧ ∀ k, k ≠ id → rows s' !! k = rows s !! k.
Proof.
  intros Hep.
  destruct (put_account_cases c s id Hep)
    as [(body & row & row' & _ & Hrow & _ & Hrun)|[Hs _]]; simpl.
  - rewrite Hrun. simpl. repeat split.
    + apply dom_insert_lookup_L. by rewrite Hrow.
    + intros k Hk. by rewrite lookup_insert_ne.
  - by rewrite Hs.
Qed.

Lemma update_account_frame_witness :
  endpoint (put_sam_renamed 1) = PUT_account 1
  ∧ next_id (full_dispatch (put_sam_renamed 1) two_store).2 = next_id two_store
  ∧ dom (rows (full_dispatch (put_sam_renamed 1) two_store).2)
    = dom (rows two_store)
  ∧ ∀ k, k ≠ 1 →
         rows (full_dispatch (put_sam_renamed 1) two_store).2 !! k
         = rows two_store !! k.
Proof.
  split; [reflexivity|].
  apply (update_account_frame (put_sam_renamed 1) two_store 1). reflexivity.
Defined.

(** X6. A DELETE of /accounts/<id> leaves the table without a row for the
    id and with every other row as it was, whether the row existed (204) or
    not (404); it draws nothing from the id sequence. *)
Theorem delete_account_frame c s id :
  endpoint c = DELETE_account id →
  let r := (full_dispatch c s).1 in
  let s' := (full_dispatch c s).2 in
  rows s' = delete id (rows s)
  ∧ next_id s' = next_id s
  ∧ status_code r = match rows s !! id with Some _ => 204 | None => 404 end.
Proof.
  intros Hep. simpl. rewrite (delete_account_cases c s id Hep).
  destruct (rows s !! id) eqn:Hrow; simpl; [done|].
  by rewrite delete_id.
Qed.

Lemma delete_account_frame_witness :
  endpoint (delete_one 1) = DELETE_account 1
  ∧ rows (full_dispatch (delete_one 1) two_store).2 = delete 1 (rows two_store)
  ∧ next_id (full_dispatch (delete_one 1) two_store).2 = next_id two_store
  ∧ status_code (full_dispatch (delete_one 1) two_store).1
    = match rows two_store !! 1 with Some _ => 204 | None => 404 end.
Proof.
  split; [reflexivity|].
  apply (delete_account_frame (delete_one 1) two_store 1). reflexivity.
Defined.

(** X7. DELETE is not idempotent for the caller: a second DELETE of the
    same id, right after a first one, is answered with 404 and changes
    nothing. *)
Theorem delete_account_twice c c' s id :
  endpoint c = DELETE_account id →
  endpoint c' = DELETE_account id →
  let s1 := (full_dispatch c s).2 in
  status_code (full_dispatch c' s1).1 = 404 ∧ (full_dispatch c' s1).2 = s1.
Proof.
  intros Hep Hep'. simpl.
  rewrite (delete_account_cases c' _ id Hep').
  by rewrite (delete_account_absent c s id Hep).
Qed.

Lemma delete_account_twice_witness :
  endpoint (delete_one 1) = DELETE_account 1
  ∧ status_code (full_dispatch (delete_one 1) sam_store).1 = 204
  ∧ status_code
      (full_dispatch (delete_one 1) (full_dispatch (delete_one 1) sam_store).2).1
    = 404
  ∧ (full_dispatch (delete_one 1) (full_dispatch (delete_one 1) sam_store).2).2
    = (full_dispatch (delete_one 1) sam_store).2.
Proof.
  split; [reflexivity|]. split; [reflexivity|].
  apply (delete_account_twice (delete_one 1) (delete_one 1) sam_store 1);
    reflexivity.
Defined.

(** X8. The routes registered for GET only read: each of them leaves the
    table as it was; /health, / and /accounts are answered with 200, and a
    GET of /accounts/<id> is answered with 200 if the id has a row and with
    404 if it has none. *)
Theorem get_endpoints_read_only c s :
  is_get c = true →
  (full_dispatch c s).2 = s
  ∧ status_code (full_dispatch c s).1
    = match endpoint c with
      | GET_account id =>
          match rows s !! id with
          | Some _ => 200
          | None => 404
          end
      | _ => 200
      end.
Proof.
  unfold is_get, full_dispatch, dispatch.
  destruct (endpoint c) as [| | | |id|id|id]; try discriminate; intros _.
  - done.
  - done.
  - by rewrite list_accounts_run.
  - rewrite read_account_run. by destruct (rows s !! id).
Qed.

Lemma get_endpoints_read_only_witness :
  is_get (get_one 5) = true
  ∧ (full_dispatch (get_one 5) sam_store).2 = sam_store
  ∧ status_code (full_dispatch (get_one 5) sam_store).1 = 404.
Proof.
  split; [reflexivity|].
  apply (get_endpoints_read_only (get_one 5) sam_store). reflexivity.
Defined.

(** X9. No failure is partial: whenever the service answers a call with a
    status of 400 or above, the table is exactly as it was before the
    call. *)
Theorem error_responses_change_nothing c s :
  400 ≤ status_code (full_dispatch c s).1 →
  (full_dispatch c s).2 = s.
Proof.
  intros Hst. destruct (endpoint c) as [| | | |id|id|id] eqn:Hep.
  1, 2, 4, 5: apply get_cases; unfold is_get; by rewrite Hep.
  - destruct (post_accounts_cases c s Hep)
      as [(body & row & _ & _ & _ & Hrun)|[Hs _]]; [|done].
    rewrite Hrun in Hst. simpl in Hst. lia.
  - destruct (put_account_cases c s id Hep)
      as [(body & row & row' & _ & _ & _ & Hrun)|[Hs _]]; [|done].
    rewrite Hrun in Hst. simpl in Hst. lia.
  - rewrite (delete_account_cases c s id Hep) in *.
    destruct (rows s !! id); simpl in *; [lia|done].
Qed.

Lemma error_responses_change_nothing_witness :
  400 ≤ status_code (full_dispatch (put_name_only 1) sam_store).1
  ∧ (full_dispatch (put_name_only 1) sam_store).2 = sam_store.
Proof.
  split; [by vm_compute|].
  apply (error_responses_change_nothing (put_name_only 1) sam_store).
  by vm_compute.
Defined.

(** X10. GET /accounts shows the table and nothing else: the array has one
    entry per row, every row appears in it as its serialized record, and
    every entry is the serialized record of a row.  On the empty table the
    array is empty. *)
Theorem list_accounts_shows_every_row c s :
  endpoint c = GET_accounts →
  ∃ items,
    sent_body (full_dispatch c s).1 = Json (JArray items)
    ∧ length items = size (rows s)
    ∧ (∀ k row, rows s !! k = Some row →
         JObject (Account.serialize (Account.mk (Some k) row)) ∈ items)
    ∧ (∀ item, item ∈ items →
         ∃ k row, rows s !! k = Some row
                  ∧ item = JObject (Account.serialize (Account.mk (Some k) row))).
Proof.
  intros Hep. eexists. unfold full_dispatch, dispatch.
  rewrite Hep, list_accounts_run. cbn [fst snd]. split; [reflexivity|].
  split; [by rewrite length_fmap, length_map_to_list|]. split.
  - intros k row Hrow. apply list_elem_of_fmap. exists (k, row).
    split; [done|]. by apply elem_of_map_to_list.
  - intros item [[k row] [-> Hin]]%list_elem_of_fmap.
    exists k, row. split; [|done]. by apply elem_of_map_to_list.
Qed.

Lemma list_accounts_shows_every_row_witness :
  endpoint get_all = GET_accounts
  ∧ ∃ items,
      sent_body (full_dispatch get_all two_store).1 = Json (JArray items)
      ∧ length items = size (rows two_store)
      ∧ (∀ k row, rows two_store !! k = Some row →
           JObject (Account.serialize (Account.mk (Some k) row)) ∈ items)
      ∧ (∀ item, item ∈ items →
           ∃ k row, rows two_store !! k = Some row
                    ∧ item
                      = JObject (Account.serialize (Account.mk (Some k) row))).
Proof.
  split; [reflexivity|].
  apply (list_accounts_shows_every_row get_all two_store). reflexivity.
Defined.

(** X11. What was created can be read back: after a POST answered with
    201, a GET of the id its body reports is answered with 200 and the very
    body of the create response. *)
Theorem create_then_read c s k g :
  endpoint c = POST_accounts →
  status_code (full_dispatch c s).1 = 201 →
  assigned_id (full_dispatch c s).1 = Some k →
  endpoint g = GET_account k →
  let s1 := (full_dispatch c s).2 in
  status_code (full_dispatch g s1).1 = 200
  ∧ sent_body (full_dispatch g s1).1 = sent_body (full_dispatch c s).1
  ∧ (full_dispatch g s1).2 = s1.
Proof.
  intros Hep Hst Hid Hg.
  destruct (post_accounts_cases c s Hep)
    as [(body & row & _ & _ & _ & Hrun)|[_ [H|H]]];
    [|rewrite H in Hst; discriminate..].
  rewrite Hrun in *. simpl in Hid. injection Hid as <-. simpl.
  unfold full_dispatch, dispatch. rewrite Hg, read_account_run. simpl.
  by rewrite lookup_insert_eq.
Qed.

Lemma create_then_read_witness :
  status_code (full_dispatch post_sam sam_store).1 = 201
  ∧ assigned_id (full_dispatch post_sam sam_store).1 = Some 2
  ∧ status_code
      (full_dispatch (get_one 2) (full_dispatch post_sam sam_store).2).1 = 200
  ∧ sent_body (full_dispatch (get_one 2) (full_dispatch post_sam sam_store).2).1
    = sent_body (full_dispatch post_sam sam_store).1
  ∧ (full_dispatch (get_one 2) (full_dispatch post_sam sam_store).2).2
    = (full_dispatch post_sam sam_store).2.
Proof.
  split; [reflexivity|]. split; [reflexivity|].
  apply (create_then_read post_sam sam_store 2 (get_one 2)); reflexivity.
Defined.

(** X12. What was updated can be read back: after a PUT answered with 200,
    a GET of the same id is answered with 200 and the very body of the
    update response. *)
Theorem update_then_read c s id g :
  endpoint c = PUT_account id →
  status_code (full_dispatch c s).1 = 200 →
  endpoint g = GET_account id →
  let s1 := (full_dispatch c s).2 in
  status_code (full_dispatch g s1).1 = 200
  ∧ sent_body (full_dispatch g s1).1 = sent_body (full_dispatch c s).1
  ∧ (full_dispatch g s1).2 = s1.
Proof.
  intros Hep Hst Hg.
  destruct (put_account_cases c s id Hep)
    as [(body & row & row' & _ & _ & _ & Hrun)|[_ [H|[H|H]]]];
    [|rewrite H in Hst; discriminate..].
  rewrite Hrun in *. simpl.
  unfold full_dispatch, dispatch. rewrite Hg, read_account_run. simpl.
  by rewrite lookup_insert_eq.
Qed.

Lemma update_then_read_witness :
  status_code (full_dispatch (put_sam_renamed 1) sam_store).1 = 200
  ∧ status_code
      (full_dispatch (get_one 1)
         (full_dispatch (put_sam_renamed 1) sam_store).2).1 = 200
  ∧ sent_body
      (full_dispatch (get_one 1)
         (full_dispatch (put_sam_renamed 1) sam_store).2).1
    = sent_body (full_dispatch (put_sam_renamed 1) sam_store).1
  ∧ (full_dispatch (get_one 1)
       (full_dispatch (put_sam_renamed 1) sam_store).2).2
    = (full_dispatch (put_sam_renamed 1) sam_store).2.
Proof.
  split; [reflexivity|].
  apply (update_then_read (put_sam_renamed 1) sam_store 1 (get_one 1));
    reflexivity.
Defined.

(** X13. In a table grown from the empty one, creating an account never
    touches the accounts that are there: after a POST to /accounts, whatever
    its outcome, every row of before is still in the table, unchanged. *)
Theorem create_accounts_keeps_rows cs c k row :
  endpoint c = POST_accounts →
  let s := (serve cs empty_store).2 in
  rows s !! k = Some row →
  rows (full_dispatch c s).2 !! k = Some row.
Proof.
  intros Hep s Hrow.
  assert (Hwf : well_formed s) by apply serve_well_formed, well_formed_empty.
  destruct (post_accounts_cases c s Hep)
    as [(body & row' & _ & _ & _ & Hrun)|[Hs _]]; [|by rewrite Hs].
  rewrite Hrun. simpl. rewrite lookup_insert_ne; [done|].
  intros E. apply well_formed_fresh in Hwf. congruence.
Qed.

Lemma create_accounts_keeps_rows_witness :
  rows (serve [post_sam; post_sam] empty_store).2 !! 1 = Some sam_row
  ∧ rows (full_dispatch post_sam (serve [post_sam; post_sam] empty_store).2).2
      !! 1 = Some sam_row.
Proof.
  split; [reflexivity|].
  apply (create_accounts_keeps_rows [post_sam; post_sam] post_sam 1 sam_row);
    reflexivity.
Defined.

(** X14. The scenario of the delete test, from any table grown from the
    empty one: an account is created, its DELETE is answered with 204, the
    GET that follows with 404, and the table holds the rows it held before
    the three calls. *)
Theorem create_delete_read cs c k d g :
  endpoint c = POST_accounts →
  let s := (serve cs empty_store).2 in
  status_code (full_dispatch c s).1 = 201 →
  assigned_id (full_dispatch c s).1 = Some k →
  endpoint d = DELETE_account k →
  endpoint g = GET_account k →
  let s1 := (full_dispatch c s).2 in
  let s2 := (full_dispatch d s1).2 in
  status_code (full_dispatch d s1).1 = 204
  ∧ status_code (full_dispatch g s2).1 = 404
  ∧ rows (full_dispatch g s2).2 = rows s.
Proof.
  intros Hep s Hst Hid Hd Hg.
  assert (Hwf : well_formed s) by apply serve_well_formed, well_formed_empty.
  destruct (post_accounts_cases c s Hep)
    as [(body & row & _ & _ & _ & Hrun)|[_ [H|H]]];
    [|rewrite H in Hst; discriminate..].
  rewrite Hrun in *. simpl in Hid. injection Hid as <-. simpl.
  rewrite (delete_account_cases d _ _ Hd). simpl.
  rewrite lookup_insert_eq. simpl. split; [done|].
  unfold full_dispatch, dispatch. rewrite Hg, read_account_run. simpl.
  rewrite lookup_delete_eq. simpl. split; [done|].
  rewrite delete_insert_eq. by apply delete_id, well_formed_fresh.
Qed.

Lemma create_delete_read_witness :
  status_code (full_dispatch post_sam (serve [post_sam] empty_store).2).1 = 201
  ∧ assigned_id (full_dispatch post_sam (serve [post_sam] empty_store).2).1
    = Some 2
  ∧ status_code
      (full_dispatch (delete_one 2)
         (full_dispatch post_sam (serve [post_sam] empty_store).2).2).1 = 204
  ∧ status_code
      (full_dispatch (get_one 2)
         (full_dispatch (delete_one 2)
            (full_dispatch post_sam (serve [post_sam] empty_store).2).2).2).1
    = 404
  ∧ rows
      (full_dispatch (get_one 2)
         (full_dispatch (delete_one 2)
            (full_dispatch post_sam (serve [post_sam] empty_store).2).2).2).2
    = rows (serve [post_sam] empty_store).2.
Proof.
  split; [reflexivity|]. split; [reflexivity|].
  apply (create_delete_read [post_sam] post_sam 2 (delete_one 2) (get_one 2));
    reflexivity.
Defined.

(** ** The body of a create response sent back *)

Lemma digit_value_char x : digit_value (digit_char x) = Some (x mod 10).
Proof.
  unfold digit_value, digit_char.
  pose proof (Z.mod_pos_bound x 10 eq_refl) as Hx.
  rewrite N_ascii_embedding by lia.
  rewrite Z2N.id by lia.
  replace (48 <=? 48 + x mod 10) with true by (symmetry; lia).
  replace (48 + x mod 10 <=? 57) with true by (symmetry; lia).
  simpl. f_equal. lia.
Qed.

(** An ISO date string written by [isoformat] is read back by
    [fromisoformat] as the date it was written from. *)
Lemma fromisoformat_isoformat d :
  valid_date d = true → fromisoformat (isoformat d) = Some d.
Proof.
  destruct d as [y m dd]. unfold valid_date. simpl.
  destruct (check_date y m dd) as [d'|] eqn:Hcheck; [intros _|discriminate].
  assert (Hrange : 1 ≤ y ≤ 9999 ∧ 1 ≤ m ≤ 12 ∧ 1 ≤ dd ≤ 31 ∧ d' = mkDate y m dd).
  { unfold check_date in Hcheck.
    destruct ((1 <=? y) && (y <=? 9999) && (1 <=? m) && (m <=? 12)
              && (1 <=? dd) && (dd <=? days_in_month y m)) eqn:Hb;
      [|discriminate].
    injection Hcheck as <-.
    repeat (apply andb_prop in Hb as [Hb ?]).
    assert (days_in_month y m ≤ 31).
    { unfold days_in_month. repeat case_match; lia. }
    repeat split; lia. }
  destruct Hrange as (Hy & Hm & Hd & ->).
  unfold fromisoformat, isoformat, pad4, pad2.
  cbv [String.append String.list_ascii_of_string digits_value year month day].
  rewrite !digit_value_char.
  replace (10 * (10 * (10 * (10 * 0 + (y / 1000) mod 10) + (y / 100) mod 10)
           + (y / 10) mod 10) + y mod 10) with y
    by (Z.div_mod_to_equations; lia).
  replace (10 * (10 * 0 + (m / 10) mod 10) + m mod 10) with m
    by (Z.div_mod_to_equations; lia).
  replace (10 * (10 * 0 + (dd / 10) mod 10) + dd mod 10) with dd
    by (Z.div_mod_to_equations; lia).
  exact Hcheck.
Qed.

Lemma fromisoformat_valid s d : fromisoformat s = Some d → valid_date d = true.
Proof.
  unfold fromisoformat. intros H.
  repeat match type of H with
         | context [match ?x with _ => _ end] => destruct x; try discriminate
         end.
  unfold check_date in H. unfold valid_date, check_date.
  destruct ((1 <=? z) && (z <=? 9999) && (1 <=? z0) && (z0 <=? 12)
            && (1 <=? z1) && (z1 <=? days_in_month z z0)) eqn:Hb;
    [|discriminate].
  injection H as <-. simpl. by rewrite Hb.
Qed.

Lemma deserialize_ok_row today self body s account :
  valid_date today = true →
  Account.deserialize today self body s = (inr account, s) →
  ∃ n e a p d,
    Account.cols account = mkRow (Some n) (Some e) (Some a) (Some p) (Some d)
    ∧ valid_date d = true.
Proof.
  intros Htoday. destruct body; try discriminate.
  unfold Account.deserialize, bind, lift, ret.
  destruct (Account.text_field "name" members) as [|n]; [discriminate|].
  destruct (Account.text_field "email" members) as [|e]; [discriminate|].
  destruct (Account.text_field "address" members) as [|a]; [discriminate|].
  destruct (Account.text_field "phone_number" members) as [|p];
    [discriminate|].
  destruct (Account.date_field today members) as [|d] eqn:Hd; [discriminate|].
  intros [= <-]. exists n, e, a, p, d. split; [done|].
  unfold Account.date_field in Hd.
  destruct (dict_get "date_joined" members) as [[]|]; try discriminate.
  - destruct (fromisoformat s0) eqn:Hiso; [|discriminate].
    injection Hd as <-. by eapply fromisoformat_valid.
  - by injection Hd as <-.
Qed.

Lemma deserialize_renamed today self k n e a p d new_name s :
  valid_date d = true →
  Account.deserialize today self
    (JObject (dict_set "name" (JString new_name)
       (Account.serialize
          (Account.mk k (mkRow (Some n) (Some e) (Some a) (Some p) (Some d))))))
    s
  = (inr (Account.mk (Account.id self)
            (mkRow (Some new_name) (Some e) (Some a) (Some p) (Some d))), s).
Proof.
  intros Hd. unfold Account.deserialize, Account.text_field, Account.date_field.
  simpl. rewrite (fromisoformat_isoformat d Hd). reflexivity.
Qed.

(** X15. The scenario of the update test: the body of a create response,
    sent back with another name in a PUT to the id it reports, is accepted
    with 200, and the response is the body that was sent, with the new name
    and the same id.  (A record written by [serialize] is read back by
    [deserialize]; the date the create defaulted to has to be a date of the
    calendar.) *)
Theorem put_back_created_account c s account k new_name p :
  endpoint c = POST_accounts →
  valid_date (today c) = true →
  status_code (full_dispatch c s).1 = 201 →
  get_json_members (full_dispatch c s).1 = Some account →
  dict_get "id" account = Some (JInt k) →
  endpoint p = PUT_account k →
  body_json (request p)
  = inr (JObject (dict_set "name" (JString new_name) account)) →
  let s1 := (full_dispatch c s).2 in
  let sent := dict_set "name" (JString new_name) account in
  status_code (full_dispatch p s1).1 = 200
  ∧ get_json_members (full_dispatch p s1).1 = Some sent
  ∧ dict_get "name" sent = Some (JString new_name)
  ∧ dict_get "id" sent = Some (JInt k).
Proof.
  intros Hep Htoday Hst Hacc Hid Hp Hbody.
  destruct (post_accounts_cases c s Hep)
    as [(body & row & _ & _ & Hde & Hrun)|[_ [H|H]]];
    [|rewrite H in Hst; discriminate..].
  destruct (deserialize_ok_row _ _ _ _ _ Htoday (Hde s))
    as (n & e & a & ph & d & Hrow & Hd).
  simpl in Hrow. subst row. rewrite Hrun in *. clear Hrun Hst.
  unfold get_json_members in Hacc. simpl in Hacc. injection Hacc as <-.
  simpl in Hid. injection Hid as <-. simpl.
  unfold full_dispatch, dispatch. rewrite Hp.
  erewrite update_account_present;
    [|exact Hbody|simpl; apply lookup_insert_eq].
  unfold bind. rewrite deserialize_renamed by done. simpl.
  repeat split.
Qed.

Lemma put_back_created_account_witness :
  valid_date a_day = true
  ∧ status_code (full_dispatch post_sam empty_store).1 = 201
  ∧ let account := Account.serialize (Account.mk (Some 1) sam_row) in
    let sent := dict_set "name" (JString "Krissy Brimijoin") account in
    let p := put_back 1 account "Krissy Brimijoin" a_day in
    status_code (full_dispatch p (full_dispatch post_sam empty_store).2).1 = 200
    ∧ get_json_members (full_dispatch p (full_dispatch post_sam empty_store).2).1
      = Some sent
    ∧ dict_get "name" sent = Some (JString "Krissy Brimijoin")
    ∧ dict_get "id" sent = Some (JInt 1).
Proof.
  split; [reflexivity|]. split; [reflexivity|].
  apply (put_back_created_account post_sam empty_store
           (Account.serialize (Account.mk (Some 1) sam_row)) 1
           "Krissy Brimijoin"
           (put_back 1 (Account.serialize (Account.mk (Some 1) sam_row))
              "Krissy Brimijoin" a_day));
    reflexivity.
Defined.

(** ** The helper of the test suite *)

(** What [serialize] writes of a populated account, [deserialize] reads
    back, whatever id the mapping carries. *)
Lemma deserialize_serialize today self k row s :
  populated row = true →
  Account.deserialize today self
    (JObject (Account.serialize (Account.mk k row))) s
  = (inr (Account.mk (Account.id self) row), s).
Proof.
  destruct row as [[n|] [e|] [a|] [p|] [d|]]; try discriminate.
  simpl. intros Hd.
  unfold Account.deserialize, Account.text_field, Account.date_field.
  simpl. rewrite (fromisoformat_isoformat d Hd). reflexivity.
Qed.

Lemma post_serialized_run c s k row :
  endpoint c = POST_accounts →
  content_type (request c) = Some "application/json" →
  body_json (request c) = inr (JObject (Account.serialize (Account.mk k row))) →
  populated row = true →
  full_dispatch c s
  = (make_response
       (RResp (jsonify (JObject
          (Account.serialize (Account.mk (Some (next_id s)) row)))))
       201 [("Location", "/")],
     {| rows := <[next_id s := row]> (rows s); next_id := next_id s + 1 |}).
Proof.
  intros Hep Hct Hbody Hrow. apply full_dispatch_returns.
  unfold dispatch. rewrite Hep, create_accounts_json by done.
  unfold bind, get_json. rewrite Hbody. cbn [ret].
  by rewrite deserialize_serialize.
Qed.

Lemma create_accounts_helper_run accounts today : ∀ s,
  Forall (λ a, populated (Account.cols a) = true) accounts →
  ∃ created s',
    _create_accounts accounts today s = (Some created, s')
    ∧ length created = length accounts
    ∧ next_id s' = next_id s + Z.of_nat (length accounts)
    ∧ (∀ (i : nat) a, accounts !! i = Some a →
         created !! i
         = Some (Account.mk (Some (next_id s + Z.of_nat i)) (Account.cols a))
         ∧ rows s' !! (next_id s + Z.of_nat i) = Some (Account.cols a))
    ∧ (∀ k, k < next_id s → rows s' !! k = rows s !! k)
    ∧ (well_formed s →
       size (rows s') = (size (rows s) + length accounts)%nat).
Proof.
  induction accounts as [|a rest IH]; intros s Hpop.
  { exists [], s. simpl. repeat split; try done; try lia.
    all: intros i a; by rewrite lookup_nil. }
  apply Forall_cons in Hpop as [Ha Hrest].
  cbn [_create_accounts].
  rewrite (post_serialized_run (post_account a today) s (Account.id a)
             (Account.cols a)); [|done|done|by destruct a|done].
  cbn [status_code make_response]. rewrite bool_decide_eq_true_2 by done.
  unfold get_json_members. cbn [sent_body status_code make_response bodiless
    data jsonify]. simpl dict_get.
  set (s1 := {| rows := <[next_id s := Account.cols a]> (rows s);
                next_id := next_id s + 1 |}).
  destruct (IH s1 Hrest) as (created & s' & -> & Hlen & Hnext & Hat & Hlow & Hsz).
  eexists _, s'. split; [reflexivity|]. simpl in Hnext, Hlow.
  split; [simpl; by rewrite Hlen|].
  split; [simpl; lia|]. split; [|split].
  - intros [|i] a' Hi.
    + injection Hi as <-. cbn [Z.of_nat]. rewrite Z.add_0_r. split; [done|].
      rewrite Hlow by lia. simpl. apply lookup_insert_eq.
    + destruct (Hat i a' Hi) as [Hc Hr]. simpl in Hc, Hr. simpl.
      replace (next_id s + Z.of_nat (S i)) with (next_id s + 1 + Z.of_nat i)
        by lia.
      by split.
  - intros k Hk. rewrite Hlow by lia. simpl. apply lookup_insert_ne. lia.
  - intros Hwf. rewrite Hsz.
    + simpl. rewrite map_size_insert_None by by apply well_formed_fresh. lia.
    + intros k. simpl. destruct (decide (next_id s = k)) as [<-|Hne]; [lia|].
      rewrite lookup_insert_ne by done. intros Hk. specialize (Hwf k Hk). lia.
Qed.

(** X16. The scenario of the create test: posting the serialized form of a
    populated account is answered with 201 and a Location header, and the
    body of the response is the account as it was posted, column for
    column, under the id the table gave it; an id carried by the posted
    mapping is ignored. *)
Theorem create_serialized_account c s k row :
  endpoint c = POST_accounts →
  content_type (request c) = Some "application/json" →
  body_json (request c) = inr (JObject (Account.serialize (Account.mk k row))) →
  populated row = true →
  let r := (full_dispatch c s).1 in
  let s' := (full_dispatch c s).2 in
  status_code r = 201
  ∧ is_Some (headers_get "Location" (resp_headers r))
  ∧ get_json_members r
    = Some (Account.serialize (Account.mk (Some (next_id s)) row))
  ∧ rows s' !! next_id s = Some row.
Proof.
  intros Hep Hct Hbody Hrow. simpl.
  rewrite (post_serialized_run c s k row Hep Hct Hbody Hrow). simpl.
  repeat split; [by eexists|]. apply lookup_insert_eq.
Qed.

Lemma create_serialized_account_witness :
  populated sam_row = true
  ∧ status_code (full_dispatch (post_account factory_sam a_day) sam_store).1
    = 201
  ∧ is_Some (headers_get "Location"
               (resp_headers
                  (full_dispatch (post_account factory_sam a_day) sam_store).1))
  ∧ get_json_members
      (full_dispatch (post_account factory_sam a_day) sam_store).1
    = Some (Account.serialize (Account.mk (Some (next_id sam_store)) sam_row))
  ∧ rows (full_dispatch (post_account factory_sam a_day) sam_store).2
      !! next_id sam_store = Some sam_row.
Proof.
  split; [reflexivity|].
  apply (create_serialized_account (post_account factory_sam a_day) sam_store
           None sam_row); reflexivity.
Defined.

(** X17. The helper [_create_accounts] of the tests never fails on
    populated accounts: every post is answered with 201, the accounts come
    back in the order given, each under its own id, consecutive from the
    next id of the sequence, each is in the table under that id, and no row
    that was there before is touched. *)
Theorem create_accounts_helper_collects accounts today s :
  Forall (λ a, populated (Account.cols a) = true) accounts →
  ∃ created s',
    _create_accounts accounts today s = (Some created, s')
    ∧ length created = length accounts
    ∧ next_id s' = next_id s + Z.of_nat (length accounts)
    ∧ (∀ (i : nat) a, accounts !! i = Some a →
         created !! i
         = Some (Account.mk (Some (next_id s + Z.of_nat i)) (Account.cols a))
         ∧ rows s' !! (next_id s + Z.of_nat i) = Some (Account.cols a))
    ∧ (∀ k, k < next_id s → rows s' !! k = rows s !! k).
Proof.
  intros Hpop.
  destruct (create_accounts_helper_run accounts today s Hpop)
    as (created & s' & Hrun & Hlen & Hnext & Hat & Hlow & _).
  by exists created, s'.
Qed.

Lemma create_accounts_helper_collects_witness :
  Forall (λ a, populated (Account.cols a) = true) [factory_sam; factory_sam_a]
  ∧ ∃ created s',
      _create_accounts [factory_sam; factory_sam_a] a_day sam_store
      = (Some created, s')
      ∧ length created = length [factory_sam; factory_sam_a]
      ∧ next_id s'
        = next_id sam_store + Z.of_nat (length [factory_sam; factory_sam_a])
      ∧ (∀ (i : nat) a, [factory_sam; factory_sam_a] !! i = Some a →
           created !! i
           = Some (Account.mk (Some (next_id sam_store + Z.of_nat i))
                     (Account.cols a))
           ∧ rows s' !! (next_id sam_store + Z.of_nat i)
             = Some (Account.cols a))
      ∧ (∀ k, k < next_id sam_store → rows s' !! k = rows sam_store !! k).
Proof.
  split; [repeat constructor|].
  apply (create_accounts_helper_collects [factory_sam; factory_sam_a] a_day
           sam_store).
  repeat constructor.
Defined.

(** X18. The scenario of the list test: on the table as [setUp] clears it,
    wherever the id sequence stands, after the helper has created the
    accounts the factory handed it, GET /accounts is answered with 200 and
    an array of as many records as accounts were created. *)
Theorem list_after_create_accounts_helper accounts today next g :
  Forall (λ a, populated (Account.cols a) = true) accounts →
  endpoint g = GET_accounts →
  let s' := (_create_accounts accounts today (cleared next)).2 in
  ∃ items,
    status_code (full_dispatch g s').1 = 200
    ∧ sent_body (full_dispatch g s').1 = Json (JArray items)
    ∧ length items = length accounts.
Proof.
  intros Hpop Hg.
  destruct (create_accounts_helper_run accounts today (cleared next) Hpop)
    as (created & s' & Hrun & _ & _ & _ & _ & Hsz).
  rewrite Hrun. cbn [snd]. eexists. unfold full_dispatch, dispatch.
  rewrite Hg, list_accounts_run. cbn [fst snd status_code make_response].
  repeat split.
  rewrite length_fmap, length_map_to_list, Hsz.
  - unfold cleared. cbn [rows]. by rewrite map_size_empty.
  - intros k. unfold cleared. cbn [rows]. rewrite lookup_empty. by intros [? ?].
Qed.

Lemma list_after_create_accounts_helper_witness :
  Forall (λ a, populated (Account.cols a) = true)
    [factory_sam; factory_sam_a; factory_sam]
  ∧ ∃ items,
      status_code
        (full_dispatch get_all
           (_create_accounts [factory_sam; factory_sam_a; factory_sam] a_day
              (cleared 8)).2).1 = 200
      ∧ sent_body
          (full_dispatch get_all
             (_create_accounts [factory_sam; factory_sam_a; factory_sam] a_day
                (cleared 8)).2).1 = Json (JArray items)
      ∧ length items = length [factory_sam; factory_sam_a; factory_sam].
Proof.
  split; [repeat constructor|].
  apply (list_after_create_accounts_helper
           [factory_sam; factory_sam_a; factory_sam] a_day 8 get_all);
    [repeat constructor|reflexivity].
Defined.
